(** * smarttimers: the [Timer] clock, its clock registry and the [SmartTimer] tracker

    A shallow embedding of the two package variants found in the repository,

    - [src/smarttimers/timer.py]  (module [Smarttimers] below) and
    - [src/smarttimer/timer.py]   (module [Smarttimer]  below),

    together with a model of the [SmartTimer] tracker (module [Tracker]),
    whose class is exercised by [src/tests/test_SmartTimerInstanceMethods.py]
    but whose source file is not among the sources under [src/].

    Modelling conventions.
    - A Python [float] is the kernel's binary64 float ([PrimFloat.float]); a
      Python [int] is a [Z].  The arithmetic and the comparisons the code
      performs are the IEEE ones, NaN and the infinities included.
    - A Python exception is a constructor of [exn]; a call that can raise
      returns a [result]; a method that mutates [self] returns an [outcome],
      which keeps the state the object is left in when the method raises.
    - The class attributes [DEFAULT_CLOCK_NAME] and [CLOCKS] are the two
      fields of [TimerClass], passed explicitly.
    - [time.get_clock_info] belongs to the Python runtime: it is a [Variable]
      of the sections that need it. *)

From Stdlib Require Import ZArith Floats Lia Bool.
From Stdlib Require Uint63.
From stdpp Require Import base option list gmap strings.

Local Open Scope Z_scope.
Local Open Scope string_scope.

(** ** Exceptions *)

Inductive exn : Type :=
  | TypeError | ValueError | KeyError | AttributeError | OverflowError
  | TimerTypeError | TimerValueError | TimerKeyError
  | TimerCompatibilityError | TimerError.



(** A call that returns a value or raises. *)
Inductive result (A : Type) : Type :=
  | Ok (a : A)
  | Raise (e : exn).
Arguments Ok {A} a.
Arguments Raise {A} e.

#[export] Instance result_ret : MRet result := fun A a => Ok a.
#[export] Instance result_bind : MBind result := fun A B f m =>
  match m with
  | Ok a => f a
  | Raise e => Raise e
  end.

(** A method that mutates its object: [Done s] is a normal return that leaves
    the object in state [s]; [Fail e s] raises [e] and leaves the object in
    state [s] (what was assigned before the [raise] stays assigned). *)
Inductive outcome (S : Type) : Type :=
  | Done (s : S)
  | Fail (e : exn) (s : S).
Arguments Done {S} s.
Arguments Fail {S} e s.

Definition and_then {S : Type} (m : outcome S) (k : S -> outcome S) : outcome S :=
  match m with
  | Done s => k s
  | Fail e s => Fail e s
  end.
Notation "m ;;; k" := (and_then m k) (at level 61, left associativity).

Definition state_of {S : Type} (o : outcome S) : S :=
  match o with
  | Done s => s
  | Fail _ s => s
  end.

(** A constructor call: the object exists only when [__init__] returns. *)
Definition constructed {S : Type} (o : outcome S) : result S :=
  match o with
  | Done s => Ok s
  | Fail e _ => Raise e
  end.

(** ** Python values *)

(** The identity of a callable object (a function is compared with [is]). *)
Definition clockfn : Type := positive.

(** The instance attributes of a [Timer].  [_clock_name] and [_clock] are
    absent ([None]) until the [clock_name] setter has run once: the setter
    tests [hasattr(self, '_clock_name')].  The older package calls the label
    attribute [_id]. *)
Record Timer : Type := mkTimer {
  _label : string;
  _seconds : float;
  _minutes : float;
  _clock_name : option string;
  _clock : option clockfn
}.

(** The values that can reach the code as arguments. *)
#[local] Unset Elimination Schemes.
Inductive pyval : Type :=
  | VNone
  | VBool (b : bool)
  | VInt (z : Z)
  | VFloat (f : float)
  | VStr (s : string)
  | VFunc (f : clockfn)
  | VTimer (t : Timer)
  | VList (l : list pyval)
  | VDict (items : list (pyval * pyval)).
#[local] Set Elimination Schemes.

(** [bool(v)]: [Timer] defines neither [__bool__] nor [__len__]. *)
Definition truthy (v : pyval) : bool :=
  match v with
  | VNone => false
  | VBool b => b
  | VInt z => negb (Z.eqb z 0)
  | VFloat f => negb (f =? 0)%float
  | VStr s => negb (String.eqb s "")
  | VFunc _ => true
  | VTimer _ => true
  | VList l => match l with [] => false | _ => true end
  | VDict l => match l with [] => false | _ => true end
  end.


(** [hash(v)] raises [TypeError] for lists, dicts and for [Timer] instances
    (the class defines [__eq__] without [__hash__]). *)
Definition hashable (v : pyval) : bool :=
  match v with
  | VList _ | VDict _ | VTimer _ => false
  | _ => true
  end.

(** The numbers: [isinstance(v, (int, float))]; [bool] is a subclass of [int]. *)
Inductive pynum : Type :=
  | NInt (z : Z)
  | NFloat (f : float).

Definition as_num (v : pyval) : option pynum :=
  match v with
  | VBool b => Some (NInt (if b then 1 else 0))
  | VInt z => Some (NInt z)
  | VFloat f => Some (NFloat f)
  | _ => None
  end.

(** The float nearest to an integer (ties to even). *)
Definition float_of_Z (z : Z) : float :=
  SF2Prim (binary_normalize prec emax z 0 false).

(** [float(n)]: an [int] too large for a float raises [OverflowError]. *)
Definition py_float (n : pynum) : result float :=
  match n with
  | NFloat f => Ok f
  | NInt z =>
      let f := float_of_Z z in
      if is_infinity f then Raise OverflowError else Ok f
  end.

(** [n < 0.]: an [int] is compared with a float exactly. *)
Definition num_ltb0 (n : pynum) : bool :=
  match n with
  | NFloat f => (f <? 0)%float
  | NInt z => Z.ltb z 0
  end.

(** [n / d] with a float [d] other than zero: the [int] is converted first. *)
Definition truediv (n : pynum) (d : float) : result float :=
  f ← py_float n; Ok (f / d)%float.

(** [sep.join(l)]. *)
Fixpoint join (sep : string) (l : list string) : string :=
  match l with
  | [] => ""
  | [x] => x
  | x :: l' => x ++ sep ++ join sep l'
  end.

(** [filter(None, l)] on strings keeps the non-empty ones. *)
Definition nonempty (s : string) : bool := negb (String.eqb s "").

Definition join_labels (sep : string) (a b : string) : string :=
  join sep (List.filter nonempty [a; b]).

(** ** The class attributes and the Python runtime *)

(** [Timer.DEFAULT_CLOCK_NAME] and [Timer.CLOCKS]: a [TimerDict] holds string
    keys and callable values once every entry went through [__setitem__]. *)
Record TimerClass : Type := mkClass {
  DEFAULT_CLOCK_NAME : string;
  CLOCKS : gmap string clockfn
}.

(** What [time.get_clock_info(name)] returns (a [SimpleNamespace]). *)
Record clock_info : Type := mkInfo {
  adjustable : bool;
  implementation : string;
  monotonic : bool;
  resolution : float
}.

(** [==] on two such namespaces compares the attributes. *)
Definition clock_info_eqb (a b : clock_info) : bool :=
  Bool.eqb (adjustable a) (adjustable b)
  && String.eqb (implementation a) (implementation b)
  && Bool.eqb (monotonic a) (monotonic b)
  && (resolution a =? resolution b)%float.

(** The identities of the five functions of module [time] that both packages
    register when the class is created. *)
Definition time_perf_counter : clockfn := 1%positive.
Definition time_process_time : clockfn := 2%positive.
Definition time_clock : clockfn := 3%positive.
Definition time_monotonic : clockfn := 4%positive.
Definition time_time : clockfn := 5%positive.

Definition builtin_items : list (pyval * pyval) :=
  [ (VStr "perf_counter", VFunc time_perf_counter);
    (VStr "process_time", VFunc time_process_time);
    (VStr "clock", VFunc time_clock);
    (VStr "monotonic", VFunc time_monotonic);
    (VStr "time", VFunc time_time) ].

Definition as_callable (v : pyval) : option clockfn :=
  match v with
  | VFunc f => Some f
  | _ => None
  end.

Definition with_clocks (cls : TimerClass) (d : gmap string clockfn) : TimerClass :=
  mkClass (DEFAULT_CLOCK_NAME cls) d.

(** A method of the registry run on the class attribute [CLOCKS]. *)
Definition on_clocks (cls : TimerClass)
    (m : gmap string clockfn -> outcome (gmap string clockfn)) : outcome TimerClass :=
  match m (CLOCKS cls) with
  | Done d => Done (with_clocks cls d)
  | Fail e d => Fail e (with_clocks cls d)
  end.

(** Assignments to the instance attributes. *)
Definition set__label (s : string) (t : Timer) : Timer :=
  mkTimer s (_seconds t) (_minutes t) (_clock_name t) (_clock t).
Definition set__seconds (f : float) (t : Timer) : Timer :=
  mkTimer (_label t) f (_minutes t) (_clock_name t) (_clock t).
Definition set__minutes (f : float) (t : Timer) : Timer :=
  mkTimer (_label t) (_seconds t) f (_clock_name t) (_clock t).
Definition set__clock_name (n : string) (t : Timer) : Timer :=
  mkTimer (_label t) (_seconds t) (_minutes t) (Some n) (_clock t).
Definition set__clock (f : clockfn) (t : Timer) : Timer :=
  mkTimer (_label t) (_seconds t) (_minutes t) (_clock_name t) (Some f).

(** The object [__init__] receives: no attribute is set yet.  The label and
    the two time values are assigned before anything reads them. *)
Definition blank : Timer := mkTimer "" 0%float 0%float None None.

(** The keyword arguments [__init__] looks at ([kwargs.get]). *)
Record kwargs : Type := mkKwargs {
  kw_seconds : option pyval;
  kw_clock_name : option pyval;
  kw_timer : option pyval
}.

(** Reading an attribute of an arbitrary value. *)
Definition attr_seconds (v : pyval) : result float :=
  match v with
  | VTimer t => Ok (_seconds t)
  | _ => Raise AttributeError
  end.

Definition attr_label (v : pyval) : result string :=
  match v with
  | VTimer t => Ok (_label t)
  | _ => Raise AttributeError
  end.

(** The property [clock_name] reads [self._clock_name]. *)
Definition clock_name (self : Timer) : result string :=
  match _clock_name self with
  | Some n => Ok n
  | None => Raise AttributeError
  end.

Definition attr_clock_name (v : pyval) : result string :=
  match v with
  | VTimer t => clock_name t
  | _ => Raise AttributeError
  end.

(** [dict.__getitem__] and [dict.__delitem__] on a dictionary whose keys are
    strings: an unhashable key raises [TypeError], a key that is not there
    raises [KeyError]. *)
Definition dict_getitem (key : pyval) (self : gmap string clockfn) : result clockfn :=
  if negb (hashable key) then Raise TypeError
  else match key with
       | VStr k => match self !! k with
                   | Some f => Ok f
                   | None => Raise KeyError
                   end
       | _ => Raise KeyError
       end.

Definition dict_delitem (key : pyval) (self : gmap string clockfn)
    : outcome (gmap string clockfn) :=
  if negb (hashable key) then Fail TypeError self
  else match key with
       | VStr k => match self !! k with
                   | Some _ => Done (delete k self)
                   | None => Fail KeyError self
                   end
       | _ => Fail KeyError self
       end.

(** * Package [smarttimers] ([src/smarttimers/timer.py]) *)

Module Smarttimers.

(** ** [TimerDict] *)
Module TimerDict.

Definition __setitem__ (key value : pyval) (self : gmap string clockfn)
    : outcome (gmap string clockfn) :=
  match key with
  | VStr k =>
      if negb (nonempty k) then Fail KeyError self
      else match as_callable value with
           | None => Fail ValueError self
           | Some f => Done (<[k := f]> self)
           end
  | _ => Fail KeyError self
  end.

(** [for k, v in tdict.items(): self[k] = v] *)
Fixpoint setitems (items : list (pyval * pyval)) (self : gmap string clockfn)
    : outcome (gmap string clockfn) :=
  match items with
  | [] => Done self
  | (k, v) :: rest => __setitem__ k v self ;;; setitems rest
  end.

Definition update (tdict : pyval) (self : gmap string clockfn)
    : outcome (gmap string clockfn) :=
  match tdict with
  | VDict items => setitems items self
  | _ => Fail TypeError self
  end.

Definition __init__ (tdict : pyval) : result (gmap string clockfn) :=
  constructed (if truthy tdict then update tdict ∅ else Done ∅).

(** [__getitem__] and [__delitem__] are the ones of [dict]. *)
Definition __getitem__ := dict_getitem.
Definition __delitem__ := dict_delitem.

End TimerDict.

(** ** Class attributes and class methods of [Timer] *)

Definition _DEFAULT_CLOCK_NAME : string := "perf_counter".

Definition _CLOCKS : gmap string clockfn :=
  <["time" := time_time]> (<["monotonic" := time_monotonic]>
  (<["clock" := time_clock]> (<["process_time" := time_process_time]>
  (<["perf_counter" := time_perf_counter]> ∅)))).

Definition initial_class : TimerClass := mkClass _DEFAULT_CLOCK_NAME _CLOCKS.

Definition register_clock (clock_name clock_func : pyval) (cls : TimerClass)
    : outcome TimerClass :=
  on_clocks cls (TimerDict.__setitem__ clock_name clock_func).

Definition unregister_clock (clock_name : pyval) (cls : TimerClass)
    : outcome TimerClass :=
  on_clocks cls (fun d =>
    match TimerDict.__getitem__ clock_name d with
    | Raise e => Fail e d
    | Ok _ => TimerDict.__delitem__ clock_name d
    end).

(** ** Instance methods of [Timer] *)

Section Instance.

(** [time.get_clock_info]: [None] when the call raises (an unknown clock). *)
Variable get_clock_info : string -> option clock_info.
(** The class attributes at the time of the call. *)
Variable cls : TimerClass.

(** [type(self).CLOCKS[name]] for a string [name]. *)
Definition CLOCKS_getitem (name : string) : result clockfn :=
  match CLOCKS cls !! name with
  | Some f => Ok f
  | None => Raise KeyError
  end.

(** The body of the [try] of [is_compatible]; [None] when it raises. *)
Definition same_clock_info (self timer : Timer) : option bool :=
  n1 ← _clock_name self; i1 ← get_clock_info n1;
  n2 ← _clock_name timer; i2 ← get_clock_info n2;
  Some (clock_info_eqb i1 i2).

Definition is_compatible (self : Timer) (timer : pyval) : result bool :=
  match timer with
  | VTimer t =>
      match same_clock_info self t with
      | Some b => Ok b
      | None =>
          n1 ← clock_name self; f1 ← CLOCKS_getitem n1;
          n2 ← clock_name t; f2 ← CLOCKS_getitem n2;
          Ok (Pos.eqb f1 f2)
      end
  | _ => Ok false
  end.

Definition label_setter (label : pyval) (self : Timer) : outcome Timer :=
  match label with
  | VStr s => Done (set__label s self)
  | _ => Fail TypeError self
  end.

Definition _set_time (seconds : pyval) (self : Timer) : outcome Timer :=
  match as_num seconds with
  | None => Fail TypeError self
  | Some n =>
      if num_ltb0 n then Fail ValueError self
      else match py_float n with
           | Raise e => Fail e self
           | Ok f =>
               let self := set__seconds f self in
               match truediv n 60 with
               | Raise e => Fail e self
               | Ok m => Done (set__minutes m self)
               end
           end
  end.

Definition clear (self : Timer) : outcome Timer := _set_time (VFloat 0) self.

Definition clock_name_setter (clock_name : pyval) (self : Timer) : outcome Timer :=
  match clock_name with
  | VStr name =>
      (match _clock_name self with
       | Some _ =>
           match is_compatible self clock_name with
           | Raise e => Fail e self
           | Ok b => if negb b then clear self else Done self
           end
       | None => Done self
       end) ;;; fun self =>
      let n := if nonempty name then name else DEFAULT_CLOCK_NAME cls in
      let self := set__clock_name n self in
      match CLOCKS_getitem n with
      | Raise e => Fail e self
      | Ok f => Done (set__clock f self)
      end
  | _ => Fail TypeError self
  end.

(** [time]: [reading] is what the call of [self._clock] returned; the method returns [self.seconds] of the state it leaves. *)
Definition time (reading : pyval) (self : Timer) : outcome Timer :=
  match _clock self with
  | None => Fail AttributeError self
  | Some _ => _set_time reading self
  end.

Definition reset (self : Timer) : outcome Timer :=
  label_setter (VStr "") self ;;;
  clock_name_setter (VStr (DEFAULT_CLOCK_NAME cls)) ;;;
  clear.

Definition __init__ (label : pyval) (kw : kwargs) : result Timer :=
  constructed (
    label_setter label blank ;;; fun self =>
    let timer := default VNone (kw_timer kw) in
    if truthy timer then
      match attr_seconds timer with
      | Raise e => Fail e self
      | Ok s =>
          _set_time (VFloat s) self ;;; fun self =>
          match attr_clock_name timer with
          | Raise e => Fail e self
          | Ok n => clock_name_setter (VStr n) self
          end
      end
    else
      _set_time (default (VFloat 0) (kw_seconds kw)) self ;;;
      clock_name_setter
        (default (VStr (DEFAULT_CLOCK_NAME cls)) (kw_clock_name kw))).

Definition __add__ (self : Timer) (timer : pyval) : result Timer :=
  b ← is_compatible self timer;
  if negb b then Raise TimerCompatibilityError
  else
    l ← attr_label timer; s ← attr_seconds timer; n ← clock_name self;
    __init__ (VStr (join_labels "+" (_label self) l))
             (mkKwargs (Some (VFloat (_seconds self + s))) (Some (VStr n)) None).

Definition __sub__ (self : Timer) (timer : pyval) : result Timer :=
  b ← is_compatible self timer;
  if negb b then Raise TimerCompatibilityError
  else
    l ← attr_label timer; s ← attr_seconds timer; n ← clock_name self;
    __init__ (VStr (join_labels "-" (_label self) l))
             (mkKwargs (Some (VFloat (abs (_seconds self - s)))) (Some (VStr n)) None).

Definition __eq__ (self : Timer) (timer : pyval) : result bool :=
  b ← is_compatible self timer;
  if negb b then Ok false
  else s ← attr_seconds timer; Ok (_seconds self =? s)%float.

Definition __lt__ (self : Timer) (timer : pyval) : result bool :=
  b ← is_compatible self timer;
  if negb b then Raise TimerCompatibilityError
  else s ← attr_seconds timer; Ok (_seconds self <? s)%float.

(** [self < timer or self == timer] *)
Definition __le__ (self : Timer) (timer : pyval) : result bool :=
  b ← __lt__ self timer;
  if (b : bool) then Ok true else __eq__ self timer.

Definition __gt__ (self : Timer) (timer : pyval) : result bool :=
  b ← __le__ self timer; Ok (negb b).

Definition __ge__ (self : Timer) (timer : pyval) : result bool :=
  b ← __lt__ self timer; Ok (negb b).

End Instance.

End Smarttimers.

(** * Package [smarttimer] ([src/smarttimer/timer.py])

    The older package: the label attribute is [id], the exceptions are the
    package's own classes, [_set_time] checks nothing (the checks on
    [seconds] are in [__init__]) and [__eq__] raises on incompatible
    operands. *)

Module Smarttimer.

Abbreviation _id := _label (only parsing).
Abbreviation set__id := set__label (only parsing).

(** ** [TimerDict]

    [update] hands its argument to [dict.update], which stores any key with
    any value without calling [__setitem__]; a registry changed that way may
    hold keys and values this model has no room for, and the method is left
    out.  The registry of the class is built from the five entries of
    [builtin_items], all of them string keys with callable values. *)
Module TimerDict.

Definition __setitem__ (key value : pyval) (self : gmap string clockfn)
    : outcome (gmap string clockfn) :=
  match key with
  | VStr k =>
      match as_callable value with
      | None => Fail TimerValueError self
      | Some f => Done (<[k := f]> self)
      end
  | _ => Fail TimerKeyError self
  end.

Definition __getitem__ (key : pyval) (self : gmap string clockfn) : result clockfn :=
  match key with
  | VStr k => match self !! k with
              | Some f => Ok f
              | None => Raise TimerKeyError
              end
  | _ => Raise TimerKeyError
  end.

(** [__delitem__] is the one of [dict]. *)
Definition __delitem__ := dict_delitem.

End TimerDict.

(** ** Class attributes and class methods of [Timer] *)

Definition _DEFAULT_CLOCK_NAME : string := "perf_counter".

Definition _CLOCKS : gmap string clockfn :=
  <["time" := time_time]> (<["monotonic" := time_monotonic]>
  (<["clock" := time_clock]> (<["process_time" := time_process_time]>
  (<["perf_counter" := time_perf_counter]> ∅)))).

Definition initial_class : TimerClass := mkClass _DEFAULT_CLOCK_NAME _CLOCKS.

Definition register_clock (clock_name clock_func : pyval) (cls : TimerClass)
    : outcome TimerClass :=
  on_clocks cls (TimerDict.__setitem__ clock_name clock_func).

Definition unregister_clock (clock_name : pyval) (cls : TimerClass)
    : outcome TimerClass :=
  on_clocks cls (fun d =>
    match TimerDict.__getitem__ clock_name d with
    | Raise e => Fail e d
    | Ok _ => TimerDict.__delitem__ clock_name d
    end).

(** ** Instance methods of [Timer] *)

Section Instance.

Variable get_clock_info : string -> option clock_info.
Variable cls : TimerClass.

Definition CLOCKS_getitem (name : string) : result clockfn :=
  TimerDict.__getitem__ (VStr name) (CLOCKS cls).

Definition same_clock_info (self other : Timer) : option bool :=
  n1 ← _clock_name self; i1 ← get_clock_info n1;
  n2 ← _clock_name other; i2 ← get_clock_info n2;
  Some (clock_info_eqb i1 i2).

Definition is_compatible (self : Timer) (other : pyval) : result bool :=
  match other with
  | VTimer t =>
      match same_clock_info self t with
      | Some b => Ok b
      | None =>
          n1 ← clock_name self; f1 ← CLOCKS_getitem n1;
          n2 ← clock_name t; f2 ← CLOCKS_getitem n2;
          Ok (Pos.eqb f1 f2)
      end
  | _ => Ok false
  end.

Definition id_setter (id : pyval) (self : Timer) : outcome Timer :=
  match id with
  | VStr s => Done (set__id s self)
  | _ => Fail TimerTypeError self
  end.

(** [_set_time] is called with a number: the checked [seconds] of
    [__init__], the [seconds] of another [Timer], the literal [0.], or what
    the timing function returned. *)
Definition _set_time (seconds : pynum) (self : Timer) : outcome Timer :=
  match py_float seconds with
  | Raise e => Fail e self
  | Ok f =>
      let self := set__seconds f self in
      match truediv seconds 60 with
      | Raise e => Fail e self
      | Ok m => Done (set__minutes m self)
      end
  end.

Definition clear (self : Timer) : outcome Timer := _set_time (NFloat 0) self.

Definition clock_name_setter (clock_name : pyval) (self : Timer) : outcome Timer :=
  match clock_name with
  | VStr name =>
      (match _clock_name self with
       | Some _ =>
           match is_compatible self clock_name with
           | Raise e => Fail e self
           | Ok b => if negb b then clear self else Done self
           end
       | None => Done self
       end) ;;; fun self =>
      let n := if nonempty name then name else DEFAULT_CLOCK_NAME cls in
      let self := set__clock_name n self in
      match CLOCKS_getitem n with
      | Raise e => Fail e self
      | Ok f => Done (set__clock f self)
      end
  | _ => Fail TimerTypeError self
  end.

(** [time]: [reading] is the number the call of [self._clock] returned. *)
Definition time (reading : pynum) (self : Timer) : outcome Timer :=
  match _clock self with
  | None => Fail AttributeError self
  | Some _ => _set_time reading self
  end.

Definition reset (self : Timer) : outcome Timer :=
  id_setter (VStr "") self ;;;
  clock_name_setter (VStr (DEFAULT_CLOCK_NAME cls)) ;;;
  clear.

Definition __init__ (id : pyval) (kw : kwargs) : result Timer :=
  constructed (
    id_setter id blank ;;; fun self =>
    match default VNone (kw_timer kw) with
    | VTimer other =>
        _set_time (NFloat (_seconds other)) self ;;; fun self =>
        match clock_name other with
        | Raise e => Fail e self
        | Ok n => clock_name_setter (VStr n) self
        end
    | _ =>
        match as_num (default (VFloat 0) (kw_seconds kw)) with
        | None => Fail TimerTypeError self
        | Some seconds =>
            if num_ltb0 seconds then Fail TimerValueError self
            else
              _set_time seconds self ;;;
              clock_name_setter
                (default (VStr (DEFAULT_CLOCK_NAME cls)) (kw_clock_name kw))
        end
    end).

Definition __add__ (self : Timer) (other : pyval) : result Timer :=
  b ← is_compatible self other;
  if negb b then Raise TimerCompatibilityError
  else
    l ← attr_label other; s ← attr_seconds other; n ← clock_name self;
    __init__ (VStr (join_labels "+" (_id self) l))
             (mkKwargs (Some (VFloat (_seconds self + s))) (Some (VStr n)) None).

Definition __sub__ (self : Timer) (other : pyval) : result Timer :=
  b ← is_compatible self other;
  if negb b then Raise TimerCompatibilityError
  else
    l ← attr_label other; s ← attr_seconds other; n ← clock_name self;
    __init__ (VStr (join_labels "-" (_id self) l))
             (mkKwargs (Some (VFloat (abs (_seconds self - s)))) (Some (VStr n)) None).

Definition __eq__ (self : Timer) (other : pyval) : result bool :=
  b ← is_compatible self other;
  if negb b then Raise TimerCompatibilityError
  else s ← attr_seconds other; Ok (_seconds self =? s)%float.

Definition __lt__ (self : Timer) (other : pyval) : result bool :=
  b ← is_compatible self other;
  if negb b then Raise TimerCompatibilityError
  else s ← attr_seconds other; Ok (_seconds self <? s)%float.

Definition __le__ (self : Timer) (other : pyval) : result bool :=
  b ← __lt__ self other;
  if (b : bool) then Ok true else __eq__ self other.

Definition __gt__ (self : Timer) (other : pyval) : result bool :=
  b ← __le__ self other; Ok (negb b).

Definition __ge__ (self : Timer) (other : pyval) : result bool :=
  b ← __lt__ self other; Ok (negb b).

End Instance.

End Smarttimer.

(** * The tracker [SmartTimer]

    The class [SmartTimer] (the IntervalTracker of the specification) is
    imported by [src/tests/test_SmartTimerInstanceMethods.py] from the
    package [smarttimers]; its source is missing from [src/].  The module
    below models it from sections 3, 4.2, 4.3 and 8 of the specification.
    Where two sentences of the specification disagree, the one that the
    tests of the repository assert is taken, and the test is named. *)

Module Tracker.

(** Modelled from the spec: the interval record of [SmartTimer] (class
    missing from [src/]): a label, seconds and minutes (section 3). *)
Record IntervalRecord : Type := mkRecord {
  label : string;
  seconds : float;
  minutes : float
}.

(** Modelled from the spec: a place in the sequence of intervals of
    [SmartTimer] (class missing from [src/]).  An interval takes its place
    when it is opened and keeps it when it is closed: after [tic('A')]
    alone the tests read one label ([test_ActiveCompletedTimes]), and after
    [tic('A'); tic('B'); toc(); toc()] the first entry of [seconds] is the
    one of ['A'] ([test_NestedScheme], [test_QueryKey]).  An open slot keeps
    the label and the reading taken when it was opened (section 4.2, timing
    semantics). *)
Inductive slot : Type :=
  | Pending (label : string) (start : float)
  | Closed (r : IntervalRecord).

(** Modelled from the spec: the state of a [SmartTimer] (class missing from
    [src/]): its name, its bound clock name, the sequence of intervals
    (section 3), the label and reading of the most recent open (for the
    cascading scheme of section 4.2), and the seconds that [walltime] adds
    up, in closing order. *)
Record SmartTimer : Type := mkSmartTimer {
  name : string;
  clock : string;
  timers : list slot;
  last_tic : option (string * float);
  wall : list float
}.

(** Modelled from the spec: the default name of a tracker (constant of the
    missing class), as [test_InitDefaultArgs] reads it. *)
Definition DEFAULT_NAME : string := "smarttimer".

(** Modelled from the spec: [SmartTimer(name, clock_name=clock)] (missing
    from [src/]): created empty (section 3, lifecycle). *)
Definition __init__ (name clock : string) : SmartTimer :=
  mkSmartTimer name clock [] None [].

(** The closed records and the open intervals among slots, in slot order. *)
Definition closed_of (ts : list slot) : list IntervalRecord :=
  omap (fun s => match s with Closed r => Some r | Pending _ _ => None end) ts.

Definition pending_of (ts : list slot) : list (string * float) :=
  omap (fun s => match s with Pending l t => Some (l, t) | Closed _ => None end) ts.

Definition slot_label (s : slot) : string :=
  match s with
  | Pending l _ => l
  | Closed r => label r
  end.

(** Modelled from the spec: the closed-record sequence and the pending-open
    stack of section 3 (attributes of the missing class), the most recent
    open on top, that is last. *)
Definition records (st : SmartTimer) : list IntervalRecord := closed_of (timers st).
Definition timer_stack (st : SmartTimer) : list (string * float) := pending_of (timers st).

(** Modelled from the spec: the properties [labels], [active_labels],
    [seconds] and [minutes] of the missing class, as the tests read them:
    [labels] counts an interval from its open on ([test_ActiveCompletedTimes]). *)
Definition labels (st : SmartTimer) : list string := slot_label <$> timers st.
Definition active_labels (st : SmartTimer) : list string := fst <$> timer_stack st.
Definition seconds_list (st : SmartTimer) : list float := seconds <$> records st.
Definition minutes_list (st : SmartTimer) : list float := minutes <$> records st.

(** Modelled from the spec: the duration of an interval (computed by the
    missing class): the Clock difference of the close reading and the open
    reading (section 3), which section 4.1 makes the absolute difference;
    the minutes are the seconds over 60. *)
Definition elapsed (l : string) (now start : float) : IntervalRecord :=
  let s := abs (now - start) in mkRecord l s (s / 60)%float.

Definition with_timers (st : SmartTimer) (ts : list slot) (w : list float) : SmartTimer :=
  mkSmartTimer (name st) (clock st) ts (last_tic st) w.

(** Modelled from the spec: [SmartTimer.tic] (missing from [src/]):
    [open(label)] pushes the label unconditionally and retains the reading
    [now] of the clock as the start of the interval (section 4.2); a label
    that is not a string is of the TypeError kind (section 7). *)
Definition tic (label : pyval) (now : float) (st : SmartTimer) : outcome SmartTimer :=
  match label with
  | VStr l =>
      Done (mkSmartTimer (name st) (clock st) (timers st ++ [Pending l now])
              (Some (l, now)) (wall st))
  | _ => Fail TimerTypeError st
  end.

(** Close the open slot nearest to the top of the stack whose label
    satisfies [p]; [None] when there is none. *)
Fixpoint close_last (p : string -> bool) (now : float) (ts : list slot)
    : option (list slot) :=
  match ts with
  | [] => None
  | s :: rest =>
      match close_last p now rest with
      | Some rest' => Some (s :: rest')
      | None =>
          match s with
          | Pending l start =>
              if p l then Some (Closed (elapsed l now start) :: rest) else None
          | Closed _ => None
          end
      end
  end.

(** The entries of the stack that a close may take: the one with the label,
    any one without a label. *)
Definition matches (label : pyval) : string -> bool :=
  match label with
  | VStr l => String.eqb l
  | _ => fun _ => true
  end.

(** Whether the entry that a close takes (the one nearest to the top that
    satisfies [p]) is the oldest open interval, the bottom of the stack:
    its record is then not nested in an interval that is still open. *)
Definition closes_oldest (p : string -> bool) (stack : list (string * float)) : bool :=
  match stack with
  | [] => false
  | (l, _) :: rest => p l && forallb (fun x => negb (p x.1)) rest
  end.

(** The seconds that a close through the stack adds to [walltime]: those
    of its record, unless the record is nested in an interval that is still
    open. *)
Definition counted (p : string -> bool) (now : float) (stack : list (string * float))
    : list float :=
  match stack with
  | [] => []
  | (l, t0) :: _ =>
      if closes_oldest p stack then [seconds (elapsed l now t0)] else []
  end.

(** Modelled from the spec: [SmartTimer.toc] (missing from [src/]), [label]
    being [None] when it is left out; [now] is the reading the close takes.
    - A label that is neither [None] nor a string: [TimerTypeError]
      (section 8; [test_InvalidTocKey]).
    - Nothing was ever opened: [TimerError], the StateError kind
      ([test_NoMatchedPair]).
    - The stack is not empty: without a label the top is popped (section
      4.2, nested); with a label the entry with that label nearest to the
      top is removed wherever it sits (explicit pair), and [TimerKeyError]
      is raised when there is none ([test_NoMatchedPair]).
    - The stack is empty after an earlier open: the cascading scheme of
      section 4.2; the close succeeds and appends a record that spans from
      the most recent open, labelled [label] or, without one, as that open
      ([test_CascadeScheme], [test_TimerStatsSelect]).
    For [walltime], the seconds of the new record are added to [wall]
    unless the record is nested, and the seconds of a cascaded record take
    the place of the last ones added: see [walltime]. *)
Definition toc (label : pyval) (now : float) (st : SmartTimer) : outcome SmartTimer :=
  match label with
  | VNone | VStr _ =>
      match last_tic st with
      | None => Fail TimerError st
      | Some (l0, t0) =>
          match timer_stack st with
          | [] =>
              let l := match label with VStr l => l | _ => l0 end in
              let r := elapsed l now t0 in
              Done (with_timers st (timers st ++ [Closed r])
                      (removelast (wall st) ++ [seconds r]))
          | _ :: _ =>
              match close_last (matches label) now (timers st) with
              | Some ts =>
                  Done (with_timers st ts
                          (wall st ++ counted (matches label) now (timer_stack st)))
              | None => Fail TimerKeyError st
              end
          end
      end
  | _ => Fail TimerTypeError st
  end.

(** [sum(l)] on floats. *)
Definition fsum (l : list float) : float := fold_left PrimFloat.add l 0%float.

(** Modelled from the spec: [SmartTimer.walltime] (missing from [src/]):
    the sum of the closed records' seconds (section 4.3), left only where
    the tests of the repository assert against that sum, as section 8
    does.  [test_NestedScheme] asserts [walltime() == seconds[0]] after
    [tic('A'); tic('B'); toc(); toc()]: the record of an interval closed
    while an interval opened before it is still open is nested in that one,
    and its seconds are not added.  [test_CascadeScheme] asserts
    [walltime() == seconds[1]] after [tic('A'); toc(); toc('B')]: the
    seconds of a cascaded record, which spans from the most recent open,
    stand for the seconds added last.  [wall] holds the seconds that are
    added, in closing order.  Sessions that mix nesting and cascading are
    fixed neither by the specification nor by a test. *)
Definition walltime (st : SmartTimer) : float := fsum (wall st).

(** Modelled from the spec: [SmartTimer.clear] (missing from [src/]):
    records and stack emptied, name preserved (sections 3 and 8,
    [test_Clear]). *)
Definition clear (st : SmartTimer) : SmartTimer :=
  mkSmartTimer (name st) (clock st) [] None [].

(** Modelled from the spec: [SmartTimer.reset] (missing from [src/]): as
    [clear], and the default clock name is restored (section 3);
    [test_Reset] reads the default name afterwards. *)
Definition reset (cls : TimerClass) (st : SmartTimer) : SmartTimer :=
  mkSmartTimer DEFAULT_NAME (DEFAULT_CLOCK_NAME cls) [] None [].

(** A session: the calls made on a tracker, with the reading each one takes. *)
Inductive call : Type :=
  | Tic (label : pyval) (now : float)
  | Toc (label : pyval) (now : float).

Definition step (c : call) (st : SmartTimer) : outcome SmartTimer :=
  match c with
  | Tic l now => tic l now st
  | Toc l now => toc l now st
  end.

Fixpoint run (cs : list call) (st : SmartTimer) : outcome SmartTimer :=
  match cs with
  | [] => Done st
  | c :: rest => step c st ;;; run rest
  end.


End Tracker.

(** * The rest of the two packages

    The metaclass [MetaTimerProperty], [Timer.get_info] and, in the package
    [smarttimer], the class methods [sum] and [diff].  The printing methods
    ([__str__], [__repr__], [print_info], [print_clocks]) and [sleep] are
    left out: they format floats or act on the outside world. *)

(** What [get_info] returns: a [SimpleNamespace] whose attributes may be
    [None]. *)
Record namespace : Type := mkNamespace {
  ns_adjustable : option bool;
  ns_implementation : string;
  ns_monotonic : option bool;
  ns_resolution : option float
}.

(** The namespace [time.get_clock_info] returns. *)
Definition namespace_of (i : clock_info) : namespace :=
  mkNamespace (Some (adjustable i)) (implementation i) (Some (monotonic i))
    (Some (resolution i)).

(** [==] on two namespaces: attribute by attribute, [None == None]. *)
Definition option_eqb {A : Type} (eqb : A -> A -> bool) (a b : option A) : bool :=
  match a, b with
  | Some x, Some y => eqb x y
  | None, None => true
  | _, _ => false
  end.

Definition namespace_eqb (a b : namespace) : bool :=
  option_eqb Bool.eqb (ns_adjustable a) (ns_adjustable b)
  && String.eqb (ns_implementation a) (ns_implementation b)
  && option_eqb Bool.eqb (ns_monotonic a) (ns_monotonic b)
  && option_eqb PrimFloat.eqb (ns_resolution a) (ns_resolution b).

Module SmarttimersRest.

(** ** [MetaTimerProperty] *)

Definition DEFAULT_CLOCK_NAME_setter (value : pyval) (cls : TimerClass)
    : outcome TimerClass :=
  match value with
  | VStr s => Done (mkClass s (CLOCKS cls))
  | _ => Fail TypeError cls
  end.



Section Instance.

Variable get_clock_info : string -> option clock_info.
(** [f.__name__]; [None] for a callable without that attribute. *)
Variable function_name : clockfn -> option string.
Variable cls : TimerClass.

(** [get_info]: the [except] clause catches [TypeError] and [ValueError],
    so the unknown clock of [time.get_clock_info]; a missing attribute or a
    missing key is raised to the caller. *)
Definition get_info (self : Timer) : result namespace :=
  n ← clock_name self;
  match get_clock_info n with
  | Some i => Ok (namespace_of i)
  | None =>
      f ← Smarttimers.CLOCKS_getitem cls n;
      match function_name f with
      | Some s => Ok (mkNamespace None s None None)
      | None => Raise AttributeError
      end
  end.

End Instance.

End SmarttimersRest.

Module SmarttimerRest.

(** ** [MetaTimerProperty]

    The setter of [CLOCKS] is left out with [TimerDict.update], which it
    calls. *)
Definition DEFAULT_CLOCK_NAME_setter (value : pyval) (cls : TimerClass)
    : outcome TimerClass :=
  match value with
  | VStr s => Done (mkClass s (CLOCKS cls))
  | _ => Fail TimerTypeError cls
  end.

Section Instance.

Variable get_clock_info : string -> option clock_info.
Variable function_name : clockfn -> option string.
Variable cls : TimerClass.

Definition get_info (self : Timer) : result namespace :=
  n ← clock_name self;
  match get_clock_info n with
  | Some i => Ok (namespace_of i)
  | None =>
      f ← Smarttimer.CLOCKS_getitem cls n;
      match function_name f with
      | Some s => Ok (mkNamespace None s None None)
      | None => Raise AttributeError
      end
  end.

(** [timer1 + timer2] and [timer1 - timer2] as Python evaluates them when
    one operand at least is a [Timer]: the method of the left operand when
    it is a [Timer]; the class defines no reflected method, so any other
    left operand, with a [Timer] on the right, ends in [TypeError].  (With
    no [Timer] among the operands the operator is the one of the operands'
    own types; the definitions are not meant for such calls.) *)
Definition binary_add (timer1 timer2 : pyval) : result Timer :=
  match timer1 with
  | VTimer t => Smarttimer.__add__ get_clock_info cls t timer2
  | _ => Raise TypeError
  end.

Definition binary_sub (timer1 timer2 : pyval) : result Timer :=
  match timer1 with
  | VTimer t => Smarttimer.__sub__ get_clock_info cls t timer2
  | _ => Raise TypeError
  end.

Definition sum (timer1 timer2 : pyval) : result Timer := binary_add timer1 timer2.

Definition diff (timer1 timer2 : pyval) : result Timer := binary_sub timer1 timer2.

End Instance.

End SmarttimerRest.

(** * Properties *)

(** ** Floats

    Facts on the sign of binary64 results, from the specification of the
    primitive operations ([FloatAxioms]). *)

Module FloatFacts.

Definition sf_nonneg (x : spec_float) : Prop := SFltb x (S754_zero false) = false.

Lemma binary_round_aux_nonneg p e m ex l :
  sf_nonneg (binary_round_aux p e false m ex l).
Proof.
  unfold binary_round_aux.
  destruct (shr_fexp p e m ex l) as [mrs' e'].
  destruct (shr_fexp p e _ e' loc_Exact) as [mrs'' e''].
  destruct (shr_m mrs''); [reflexivity| |reflexivity].
  destruct (Z.leb _ _); reflexivity.
Qed.

Lemma binary_round_nonneg p e m ex : sf_nonneg (binary_round p e false m ex).
Proof.
  unfold binary_round. destruct (shl_align _ _ _). apply binary_round_aux_nonneg.
Qed.

Lemma binary_normalize_nonneg p e (m : Z) ex sz :
  0 <= m -> sf_nonneg (binary_normalize p e m ex sz).
Proof.
  destruct m; intros H; [destruct sz; reflexivity | apply binary_round_nonneg | lia].
Qed.



(** [abs x < 0.] is false for every float, NaN included. *)
Lemma ltb_abs_zero x : (abs x <? 0)%float = false.
Proof.
  rewrite FloatAxioms.ltb_spec, abs_spec.
  destruct (Prim2SF x) as [s|s| |s m e]; reflexivity.
Qed.

(** The sum of two floats that are not negative is not negative. *)
Lemma ltb_add_zero a b :
  (a <? 0)%float = false -> (b <? 0)%float = false -> (a + b <? 0)%float = false.
Proof.
  rewrite !FloatAxioms.ltb_spec, add_spec. unfold SF64add.
  destruct (Prim2SF a) as [sa|sa| |sa ma ea], (Prim2SF b) as [sb|sb| |sb mb eb];
    try destruct sa; try destruct sb; try discriminate; try reflexivity; intros _ _.
  unfold SFadd. apply binary_normalize_nonneg. simpl. lia.
Qed.

(** [0 + abs x] is [abs x], bit for bit: a sum that starts from zero does
    not change a first term that is not negative. *)
Lemma add_zero_abs x : (0 + abs x)%float = abs x.
Proof.
  apply Prim2SF_inj. rewrite add_spec, abs_spec. unfold SF64add.
  change (Prim2SF 0) with (S754_zero false).
  destruct (Prim2SF x) as [s|s| |s m e]; reflexivity.
Qed.



End FloatFacts.

(** ** Conversions *)




(** ** The invariant of a [Timer]

    [_set_time] is the only place that assigns the two time values.  It
    refuses a value for which [seconds < 0.] holds; a NaN passes that test.
    So what every [Timer] satisfies is: [seconds < 0.] is false, and
    [minutes] is the float quotient [seconds / 60.]. *)
Definition time_ok (t : Timer) : Prop :=
  (_seconds t <? 0)%float = false /\ _minutes t = (_seconds t / 60)%float.








Lemma join_labels_spec sep a b :
  join_labels sep a b =
    match nonempty a, nonempty b with
    | true, true => a ++ sep ++ b
    | true, false => a
    | false, true => b
    | false, false => ""
    end.
Proof.
  unfold join_labels. simpl. destruct (nonempty a), (nonempty b); reflexivity.
Qed.

Lemma nonempty_true s : s <> "" -> nonempty s = true.
Proof.
  intros H. unfold nonempty. destruct (String.eqb_spec s ""); [contradiction|reflexivity].
Qed.


Module SmarttimersFacts.
Import Smarttimers.

Section Facts.
Variable get_clock_info : string -> option clock_info.
Variable cls : TimerClass.

Local Abbreviation is_compatible := (is_compatible get_clock_info cls).
Local Abbreviation clock_name_setter := (clock_name_setter get_clock_info cls).
Local Abbreviation reset := (reset get_clock_info cls).
Local Abbreviation __init__ := (__init__ get_clock_info cls).
Local Abbreviation __add__ := (__add__ get_clock_info cls).
Local Abbreviation __sub__ := (__sub__ get_clock_info cls).
Local Abbreviation __eq__ := (__eq__ get_clock_info cls).
Local Abbreviation __lt__ := (__lt__ get_clock_info cls).
Local Abbreviation __le__ := (__le__ get_clock_info cls).
Local Abbreviation __gt__ := (__gt__ get_clock_info cls).
Local Abbreviation __ge__ := (__ge__ get_clock_info cls).



Lemma set_time_float f self :
  (f <? 0)%float = false ->
  _set_time (VFloat f) self = Done (set__minutes (f / 60)%float (set__seconds f self)).
Proof. intros H. unfold _set_time. simpl. rewrite H. reflexivity. Qed.

Lemma clear_eq self :
  clear self = Done (mkTimer (_label self) 0 0 (_clock_name self) (_clock self)).
Proof. reflexivity. Qed.

Lemma is_compatible_str self s : is_compatible self (VStr s) = Ok false.
Proof. reflexivity. Qed.

(** The setter, once the name has been set before: [is_compatible] is
    handed a string, answers [False], and the time is cleared whatever the
    new name is. *)
Lemma clock_name_setter_again self prev name :
  _clock_name self = Some prev ->
  clock_name_setter (VStr name) self =
    let n := if nonempty name then name else DEFAULT_CLOCK_NAME cls in
    match CLOCKS cls !! n with
    | Some f => Done (mkTimer (_label self) 0 0 (Some n) (Some f))
    | None => Fail KeyError (mkTimer (_label self) 0 0 (Some n) (_clock self))
    end.
Proof.
  intros Hp. unfold Smarttimers.clock_name_setter. rewrite Hp. simpl.
  unfold CLOCKS_getitem.
  destruct (CLOCKS cls !! _); reflexivity.
Qed.

Lemma clock_name_setter_first self name :
  _clock_name self = None ->
  clock_name_setter (VStr name) self =
    let n := if nonempty name then name else DEFAULT_CLOCK_NAME cls in
    match CLOCKS cls !! n with
    | Some f => Done (set__clock f (set__clock_name n self))
    | None => Fail KeyError (set__clock_name n self)
    end.
Proof.
  intros Hp. unfold Smarttimers.clock_name_setter. rewrite Hp. simpl.
  unfold CLOCKS_getitem.
  destruct (CLOCKS cls !! _); reflexivity.
Qed.









(** The constructor on a string label, a float that is not negative and a
    registered, non-empty clock name. *)
Lemma init_plain l f n g :
  (f <? 0)%float = false -> n <> "" -> CLOCKS cls !! n = Some g ->
  __init__ (VStr l) (mkKwargs (Some (VFloat f)) (Some (VStr n)) None)
  = Ok (mkTimer l f (f / 60)%float (Some n) (Some g)).
Proof.
  intros Hf Hn Hg. unfold Smarttimers.__init__. simpl.
  rewrite (set_time_float _ _ Hf). simpl.
  rewrite (nonempty_true _ Hn). unfold CLOCKS_getitem. rewrite Hg. reflexivity.
Qed.

Lemma sub_compatible a b n g :
  is_compatible a (VTimer b) = Ok true ->
  _clock_name a = Some n -> n <> "" -> CLOCKS cls !! n = Some g ->
  __sub__ a (VTimer b)
  = Ok (mkTimer (join_labels "-" (_label a) (_label b))
          (abs (_seconds a - _seconds b))
          (abs (_seconds a - _seconds b) / 60)%float (Some n) (Some g)).
Proof.
  intros Hc Ha Hn Hg. unfold Smarttimers.__sub__. rewrite Hc. simpl.
  unfold clock_name. rewrite Ha. simpl.
  apply init_plain; auto using FloatFacts.ltb_abs_zero.
Qed.

Lemma add_compatible a b n g :
  is_compatible a (VTimer b) = Ok true ->
  _clock_name a = Some n -> n <> "" -> CLOCKS cls !! n = Some g ->
  (_seconds a <? 0)%float = false -> (_seconds b <? 0)%float = false ->
  __add__ a (VTimer b)
  = Ok (mkTimer (join_labels "+" (_label a) (_label b))
          (_seconds a + _seconds b)
          ((_seconds a + _seconds b) / 60)%float (Some n) (Some g)).
Proof.
  intros Hc Ha Hn Hg Hsa Hsb. unfold Smarttimers.__add__. rewrite Hc. simpl.
  unfold clock_name. rewrite Ha. simpl.
  apply init_plain; auto using FloatFacts.ltb_add_zero.
Qed.

(** The same calls when the clock name is not a key of the registry. *)
Lemma init_plain_unregistered l f n :
  (f <? 0)%float = false -> n <> "" -> CLOCKS cls !! n = None ->
  __init__ (VStr l) (mkKwargs (Some (VFloat f)) (Some (VStr n)) None) = Raise KeyError.
Proof.
  intros Hf Hn Hg. unfold Smarttimers.__init__. simpl.
  rewrite (set_time_float _ _ Hf). simpl.
  rewrite (nonempty_true _ Hn). unfold CLOCKS_getitem. rewrite Hg. reflexivity.
Qed.

Lemma sub_unregistered a b n :
  is_compatible a (VTimer b) = Ok true ->
  _clock_name a = Some n -> n <> "" -> CLOCKS cls !! n = None ->
  __sub__ a (VTimer b) = Raise KeyError.
Proof.
  intros Hc Ha Hn Hg. unfold Smarttimers.__sub__. rewrite Hc. simpl.
  unfold clock_name. rewrite Ha. simpl.
  apply init_plain_unregistered; auto using FloatFacts.ltb_abs_zero.
Qed.

Lemma add_unregistered a b n :
  is_compatible a (VTimer b) = Ok true ->
  _clock_name a = Some n -> n <> "" -> CLOCKS cls !! n = None ->
  (_seconds a <? 0)%float = false -> (_seconds b <? 0)%float = false ->
  __add__ a (VTimer b) = Raise KeyError.
Proof.
  intros Hc Ha Hn Hg Hsa Hsb. unfold Smarttimers.__add__. rewrite Hc. simpl.
  unfold clock_name. rewrite Ha. simpl.
  apply init_plain_unregistered; auto using FloatFacts.ltb_add_zero.
Qed.

Lemma init_copy_unregistered l src n s c :
  time_ok src -> _clock_name src = Some n -> n <> "" -> CLOCKS cls !! n = None ->
  __init__ (VStr l) (mkKwargs s c (Some (VTimer src))) = Raise KeyError.
Proof.
  intros [Hs Hm] Hc Hn Hg. unfold Smarttimers.__init__. simpl.
  rewrite (set_time_float _ _ Hs). simpl.
  unfold clock_name. rewrite Hc. simpl.
  rewrite (nonempty_true _ Hn). unfold CLOCKS_getitem. rewrite Hg. reflexivity.
Qed.

(** Copy construction: the [timer] keyword wins over [seconds] and
    [clock_name]. *)
Lemma init_copy l src n g s c :
  time_ok src -> _clock_name src = Some n -> n <> "" -> CLOCKS cls !! n = Some g ->
  __init__ (VStr l) (mkKwargs s c (Some (VTimer src)))
  = Ok (mkTimer l (_seconds src) (_minutes src) (Some n) (Some g)).
Proof.
  intros [Hs Hm] Hc Hn Hg. unfold Smarttimers.__init__. simpl.
  rewrite (set_time_float _ _ Hs). simpl.
  unfold clock_name. rewrite Hc. simpl.
  rewrite (nonempty_true _ Hn). unfold CLOCKS_getitem. rewrite Hg, Hm. reflexivity.
Qed.

(** Incompatible operands. *)
Lemma incompatible_ops self other :
  is_compatible self other = Ok false ->
  __add__ self other = Raise TimerCompatibilityError /\
  __sub__ self other = Raise TimerCompatibilityError /\
  __lt__ self other = Raise TimerCompatibilityError /\
  __le__ self other = Raise TimerCompatibilityError /\
  __gt__ self other = Raise TimerCompatibilityError /\
  __ge__ self other = Raise TimerCompatibilityError /\
  __eq__ self other = Ok false.
Proof.
  intros H.
  assert (Hlt : __lt__ self other = Raise TimerCompatibilityError)
    by (unfold Smarttimers.__lt__; rewrite H; reflexivity).
  assert (Hle : __le__ self other = Raise TimerCompatibilityError)
    by (unfold Smarttimers.__le__; rewrite Hlt; reflexivity).
  repeat split; try assumption.
  - unfold Smarttimers.__add__. rewrite H. reflexivity.
  - unfold Smarttimers.__sub__. rewrite H. reflexivity.
  - unfold Smarttimers.__gt__. rewrite Hle. reflexivity.
  - unfold Smarttimers.__ge__. rewrite Hlt. reflexivity.
  - unfold Smarttimers.__eq__. rewrite H. reflexivity.
Qed.

Lemma is_compatible_not_timer self other :
  (forall t, other <> VTimer t) -> is_compatible self other = Ok false.
Proof. intros H. destruct other; try reflexivity. exfalso. eapply H. reflexivity. Qed.

(** [is_compatible] raises nothing but what a missing attribute or a
    missing registry key raises. *)
Lemma is_compatible_raises self other e :
  is_compatible self other = Raise e -> e = KeyError \/ e = AttributeError.
Proof.
  destruct other as [| | | | | |t| |]; try discriminate. simpl.
  destruct (same_clock_info _ _ _); [discriminate|].
  unfold clock_name, CLOCKS_getitem.
  destruct (_clock_name self) as [n1|]; simpl; [|intros [= <-]; auto].
  destruct (CLOCKS cls !! n1); simpl; [|intros [= <-]; auto].
  destruct (_clock_name t) as [n2|]; simpl; [|intros [= <-]; auto].
  destruct (CLOCKS cls !! n2); simpl; [discriminate|intros [= <-]; auto].
Qed.



(** What a constructor call of [__add__] and [__sub__] returns when it
    returns. *)
Lemma init_inv l f n t :
  __init__ (VStr l) (mkKwargs (Some (VFloat f)) (Some (VStr n)) None) = Ok t ->
  _label t = l /\ _seconds t = f /\ _minutes t = (f / 60)%float.
Proof.
  unfold Smarttimers.__init__. simpl. unfold _set_time. simpl.
  destruct (f <? 0)%float; simpl; [discriminate|].
  destruct (CLOCKS_getitem _ _); simpl; [|discriminate].
  intros [= <-]. auto.
Qed.

Lemma sub_inv a other t :
  __sub__ a other = Ok t ->
  exists b, other = VTimer b /\
    _seconds t = abs (_seconds a - _seconds b) /\
    _minutes t = (_seconds t / 60)%float /\
    _label t = join_labels "-" (_label a) (_label b).
Proof.
  unfold Smarttimers.__sub__.
  destruct (Smarttimers.is_compatible _ _ _ _) as [[|]|]; simpl; try discriminate.
  destruct other as [| | | | | |b| |]; simpl; try discriminate.
  destruct (clock_name a); simpl; [|discriminate].
  intros H. apply init_inv in H as (Hl & Hs & Hm).
  exists b. rewrite Hm, Hs, Hl. auto.
Qed.

Lemma add_inv a other t :
  __add__ a other = Ok t ->
  exists b, other = VTimer b /\
    _seconds t = (_seconds a + _seconds b)%float /\
    _minutes t = (_seconds t / 60)%float /\
    _label t = join_labels "+" (_label a) (_label b).
Proof.
  unfold Smarttimers.__add__.
  destruct (Smarttimers.is_compatible _ _ _ _) as [[|]|]; simpl; try discriminate.
  destruct other as [| | | | | |b| |]; simpl; try discriminate.
  destruct (clock_name a); simpl; [|discriminate].
  intros H. apply init_inv in H as (Hl & Hs & Hm).
  exists b. rewrite Hm, Hs, Hl. auto.
Qed.

(** A copy, when the constructor returns. *)
Lemma init_copy_inv v s c src t :
  __init__ v (mkKwargs s c (Some (VTimer src))) = Ok t ->
  exists l n, v = VStr l /\ _clock_name src = Some n /\
    _label t = l /\ _seconds t = _seconds src /\
    _minutes t = (_seconds src / 60)%float /\
    _clock_name t = Some (if nonempty n then n else DEFAULT_CLOCK_NAME cls).
Proof.
  unfold Smarttimers.__init__.
  destruct v as [| | | |l| | | |]; simpl; try discriminate.
  unfold _set_time. simpl.
  destruct (_seconds src <? 0)%float; simpl; [discriminate|].
  unfold clock_name. destruct (_clock_name src) as [n|]; simpl; [|discriminate].
  destruct (CLOCKS_getitem _ _); simpl; [|discriminate].
  intros [= <-]. exists l, n. auto 10.
Qed.

End Facts.
End SmarttimersFacts.

Module SmarttimerFacts.
Import Smarttimer.

Section Facts.
Variable get_clock_info : string -> option clock_info.
Variable cls : TimerClass.

Local Abbreviation is_compatible := (is_compatible get_clock_info cls).
Local Abbreviation clock_name_setter := (clock_name_setter get_clock_info cls).
Local Abbreviation reset := (reset get_clock_info cls).
Local Abbreviation __init__ := (__init__ get_clock_info cls).
Local Abbreviation __add__ := (__add__ get_clock_info cls).
Local Abbreviation __sub__ := (__sub__ get_clock_info cls).
Local Abbreviation __eq__ := (__eq__ get_clock_info cls).
Local Abbreviation __lt__ := (__lt__ get_clock_info cls).
Local Abbreviation __le__ := (__le__ get_clock_info cls).
Local Abbreviation __gt__ := (__gt__ get_clock_info cls).
Local Abbreviation __ge__ := (__ge__ get_clock_info cls).

Lemma old_CLOCKS_getitem_eq n :
  CLOCKS_getitem cls n =
    match CLOCKS cls !! n with
    | Some f => Ok f
    | None => Raise TimerKeyError
    end.
Proof. reflexivity. Qed.



Lemma old_set_time_float f self :
  _set_time (NFloat f) self = Done (set__minutes (f / 60)%float (set__seconds f self)).
Proof. reflexivity. Qed.

Lemma old_clear_eq self :
  clear self = Done (mkTimer (_id self) 0 0 (_clock_name self) (_clock self)).
Proof. reflexivity. Qed.

Lemma old_is_compatible_str self s : is_compatible self (VStr s) = Ok false.
Proof. reflexivity. Qed.

Lemma old_clock_name_setter_again self prev name :
  _clock_name self = Some prev ->
  clock_name_setter (VStr name) self =
    let n := if nonempty name then name else DEFAULT_CLOCK_NAME cls in
    match CLOCKS cls !! n with
    | Some f => Done (mkTimer (_id self) 0 0 (Some n) (Some f))
    | None => Fail TimerKeyError (mkTimer (_id self) 0 0 (Some n) (_clock self))
    end.
Proof.
  intros Hp. unfold Smarttimer.clock_name_setter. rewrite Hp. simpl.
  rewrite old_CLOCKS_getitem_eq.
  destruct (CLOCKS cls !! _); reflexivity.
Qed.

Lemma old_clock_name_setter_first self name :
  _clock_name self = None ->
  clock_name_setter (VStr name) self =
    let n := if nonempty name then name else DEFAULT_CLOCK_NAME cls in
    match CLOCKS cls !! n with
    | Some f => Done (set__clock f (set__clock_name n self))
    | None => Fail TimerKeyError (set__clock_name n self)
    end.
Proof.
  intros Hp. unfold Smarttimer.clock_name_setter. rewrite Hp. simpl.
  rewrite old_CLOCKS_getitem_eq.
  destruct (CLOCKS cls !! _); reflexivity.
Qed.









Lemma old_init_plain l f n g :
  (f <? 0)%float = false -> n <> "" -> CLOCKS cls !! n = Some g ->
  __init__ (VStr l) (mkKwargs (Some (VFloat f)) (Some (VStr n)) None)
  = Ok (mkTimer l f (f / 60)%float (Some n) (Some g)).
Proof.
  intros Hf Hn Hg. unfold Smarttimer.__init__. simpl. rewrite Hf. simpl.
  rewrite (nonempty_true _ Hn), old_CLOCKS_getitem_eq, Hg. reflexivity.
Qed.

Lemma old_sub_compatible a b n g :
  is_compatible a (VTimer b) = Ok true ->
  _clock_name a = Some n -> n <> "" -> CLOCKS cls !! n = Some g ->
  __sub__ a (VTimer b)
  = Ok (mkTimer (join_labels "-" (_id a) (_id b))
          (abs (_seconds a - _seconds b))
          (abs (_seconds a - _seconds b) / 60)%float (Some n) (Some g)).
Proof.
  intros Hc Ha Hn Hg. unfold Smarttimer.__sub__. rewrite Hc. simpl.
  unfold clock_name. rewrite Ha. simpl.
  apply old_init_plain; auto using FloatFacts.ltb_abs_zero.
Qed.

Lemma old_add_compatible a b n g :
  is_compatible a (VTimer b) = Ok true ->
  _clock_name a = Some n -> n <> "" -> CLOCKS cls !! n = Some g ->
  (_seconds a <? 0)%float = false -> (_seconds b <? 0)%float = false ->
  __add__ a (VTimer b)
  = Ok (mkTimer (join_labels "+" (_id a) (_id b))
          (_seconds a + _seconds b)
          ((_seconds a + _seconds b) / 60)%float (Some n) (Some g)).
Proof.
  intros Hc Ha Hn Hg Hsa Hsb. unfold Smarttimer.__add__. rewrite Hc. simpl.
  unfold clock_name. rewrite Ha. simpl.
  apply old_init_plain; auto using FloatFacts.ltb_add_zero.
Qed.

Lemma old_init_plain_unregistered l f n :
  (f <? 0)%float = false -> n <> "" -> CLOCKS cls !! n = None ->
  __init__ (VStr l) (mkKwargs (Some (VFloat f)) (Some (VStr n)) None)
  = Raise TimerKeyError.
Proof.
  intros Hf Hn Hg. unfold Smarttimer.__init__. simpl. rewrite Hf. simpl.
  rewrite (nonempty_true _ Hn), old_CLOCKS_getitem_eq, Hg. reflexivity.
Qed.

Lemma old_sub_unregistered a b n :
  is_compatible a (VTimer b) = Ok true ->
  _clock_name a = Some n -> n <> "" -> CLOCKS cls !! n = None ->
  __sub__ a (VTimer b) = Raise TimerKeyError.
Proof.
  intros Hc Ha Hn Hg. unfold Smarttimer.__sub__. rewrite Hc. simpl.
  unfold clock_name. rewrite Ha. simpl.
  apply old_init_plain_unregistered; auto using FloatFacts.ltb_abs_zero.
Qed.

Lemma old_add_unregistered a b n :
  is_compatible a (VTimer b) = Ok true ->
  _clock_name a = Some n -> n <> "" -> CLOCKS cls !! n = None ->
  (_seconds a <? 0)%float = false -> (_seconds b <? 0)%float = false ->
  __add__ a (VTimer b) = Raise TimerKeyError.
Proof.
  intros Hc Ha Hn Hg Hsa Hsb. unfold Smarttimer.__add__. rewrite Hc. simpl.
  unfold clock_name. rewrite Ha. simpl.
  apply old_init_plain_unregistered; auto using FloatFacts.ltb_add_zero.
Qed.

Lemma old_init_copy_unregistered l src n s c :
  _clock_name src = Some n -> n <> "" -> CLOCKS cls !! n = None ->
  __init__ (VStr l) (mkKwargs s c (Some (VTimer src))) = Raise TimerKeyError.
Proof.
  intros Hc Hn Hg. unfold Smarttimer.__init__. simpl.
  unfold clock_name. rewrite Hc. simpl.
  rewrite (nonempty_true _ Hn), old_CLOCKS_getitem_eq, Hg. reflexivity.
Qed.

Lemma old_init_copy l src n g s c :
  time_ok src -> _clock_name src = Some n -> n <> "" -> CLOCKS cls !! n = Some g ->
  __init__ (VStr l) (mkKwargs s c (Some (VTimer src)))
  = Ok (mkTimer l (_seconds src) (_minutes src) (Some n) (Some g)).
Proof.
  intros [Hs Hm] Hc Hn Hg. unfold Smarttimer.__init__. simpl.
  unfold clock_name. rewrite Hc. simpl.
  rewrite (nonempty_true _ Hn), old_CLOCKS_getitem_eq, Hg, Hm. reflexivity.
Qed.

Lemma old_incompatible_ops self other :
  is_compatible self other = Ok false ->
  __add__ self other = Raise TimerCompatibilityError /\
  __sub__ self other = Raise TimerCompatibilityError /\
  __lt__ self other = Raise TimerCompatibilityError /\
  __le__ self other = Raise TimerCompatibilityError /\
  __gt__ self other = Raise TimerCompatibilityError /\
  __ge__ self other = Raise TimerCompatibilityError /\
  __eq__ self other = Raise TimerCompatibilityError.
Proof.
  intros H.
  assert (Hlt : __lt__ self other = Raise TimerCompatibilityError)
    by (unfold Smarttimer.__lt__; rewrite H; reflexivity).
  assert (Hle : __le__ self other = Raise TimerCompatibilityError)
    by (unfold Smarttimer.__le__; rewrite Hlt; reflexivity).
  repeat split; try assumption.
  - unfold Smarttimer.__add__. rewrite H. reflexivity.
  - unfold Smarttimer.__sub__. rewrite H. reflexivity.
  - unfold Smarttimer.__gt__. rewrite Hle. reflexivity.
  - unfold Smarttimer.__ge__. rewrite Hlt. reflexivity.
  - unfold Smarttimer.__eq__. rewrite H. reflexivity.
Qed.

Lemma old_is_compatible_not_timer self other :
  (forall t, other <> VTimer t) -> is_compatible self other = Ok false.
Proof. intros H. destruct other; try reflexivity. exfalso. eapply H. reflexivity. Qed.

(** What a constructor call of [__add__] and [__sub__] returns when it
    returns. *)
Lemma old_init_inv l f n t :
  __init__ (VStr l) (mkKwargs (Some (VFloat f)) (Some (VStr n)) None) = Ok t ->
  _label t = l /\ _seconds t = f /\ _minutes t = (f / 60)%float.
Proof.
  unfold Smarttimer.__init__. simpl.
  destruct (f <? 0)%float; simpl; [discriminate|].
  destruct (CLOCKS_getitem _ _); simpl; [|discriminate].
  intros [= <-]. auto.
Qed.

Lemma old_sub_inv a other t :
  __sub__ a other = Ok t ->
  exists b, other = VTimer b /\
    _seconds t = abs (_seconds a - _seconds b) /\
    _minutes t = (_seconds t / 60)%float /\
    _label t = join_labels "-" (_id a) (_id b).
Proof.
  unfold Smarttimer.__sub__.
  destruct (Smarttimer.is_compatible _ _ _ _) as [[|]|]; simpl; try discriminate.
  destruct other as [| | | | | |b| |]; simpl; try discriminate.
  destruct (clock_name a); simpl; [|discriminate].
  intros H. apply old_init_inv in H as (Hl & Hs & Hm).
  exists b. rewrite Hm, Hs, Hl. auto.
Qed.

Lemma old_add_inv a other t :
  __add__ a other = Ok t ->
  exists b, other = VTimer b /\
    _seconds t = (_seconds a + _seconds b)%float /\
    _minutes t = (_seconds t / 60)%float /\
    _label t = join_labels "+" (_id a) (_id b).
Proof.
  unfold Smarttimer.__add__.
  destruct (Smarttimer.is_compatible _ _ _ _) as [[|]|]; simpl; try discriminate.
  destruct other as [| | | | | |b| |]; simpl; try discriminate.
  destruct (clock_name a); simpl; [|discriminate].
  intros H. apply old_init_inv in H as (Hl & Hs & Hm).
  exists b. rewrite Hm, Hs, Hl. auto.
Qed.

(** A copy, when the constructor returns. *)
Lemma old_init_copy_inv v s c src t :
  __init__ v (mkKwargs s c (Some (VTimer src))) = Ok t ->
  exists l n, v = VStr l /\ _clock_name src = Some n /\
    _label t = l /\ _seconds t = _seconds src /\
    _minutes t = (_seconds src / 60)%float /\
    _clock_name t = Some (if nonempty n then n else DEFAULT_CLOCK_NAME cls).
Proof.
  unfold Smarttimer.__init__.
  destruct v as [| | | |l| | | |]; simpl; try discriminate.
  unfold clock_name. destruct (_clock_name src) as [n|]; simpl; [|discriminate].
  destruct (CLOCKS_getitem _ _); simpl; [|discriminate].
  intros [= <-]. exists l, n. auto 10.
Qed.

End Facts.
End SmarttimerFacts.

(** ** The registry *)





Module RegistryFacts.
Import Smarttimers.





Lemma on_clocks_state cls m :
  CLOCKS (state_of (on_clocks cls m)) = state_of (m (CLOCKS cls)).
Proof. unfold on_clocks. destruct (m (CLOCKS cls)); reflexivity. Qed.






End RegistryFacts.

(** ** The tracker *)

Module TrackerFacts.
Import Tracker.










(** *** The rule of [toc] *)









(** *** [walltime] in a session without nesting and cascading *)












(** *** The tests of the repository, on the model

    The assertions of [src/tests/test_SmartTimerInstanceMethods.py] that
    fix the model, for arbitrary readings of the clock. *)

Section Tests.
Variables t0 t1 t2 t3 : float.
Variable c : string.

Let run_on (name : string) (cs : list call) : SmartTimer :=
  state_of (run cs (__init__ name c)).

Example test_InitDefaultArgs :
  let t := __init__ DEFAULT_NAME c in
  name t = "smarttimer" /\ labels t = [] /\ active_labels t = [] /\
  seconds_list t = [] /\ minutes_list t = [].
Proof. repeat split. Qed.

Example test_ActiveCompletedTimes :
  let a := run_on DEFAULT_NAME [Tic (VStr "A") t0] in
  let b := run_on DEFAULT_NAME [Tic (VStr "A") t0; Toc VNone t1] in
  let d := run_on DEFAULT_NAME [Tic (VStr "A") t0; Toc VNone t1; Tic (VStr "B") t2] in
  length (active_labels a) = 1%nat /\ length (labels a) = 1%nat /\
  length (active_labels b) = 0%nat /\ length (labels b) = 1%nat /\
  length (active_labels d) = 1%nat /\ length (labels d) = 2%nat.
Proof. repeat split. Qed.

Example test_CascadeScheme :
  let t := run_on DEFAULT_NAME [Tic (VStr "A") t0; Toc VNone t1; Toc (VStr "B") t2] in
  labels t = ["A"; "B"] /\ active_labels t = [] /\ length (seconds_list t) = 2%nat /\
  seconds_list t !! 1%nat = Some (walltime t).
Proof.
  repeat split. cbn. unfold walltime, fsum. cbn.
  rewrite FloatFacts.add_zero_abs. reflexivity.
Qed.

Example test_NestedScheme :
  let t := run_on DEFAULT_NAME
             [Tic (VStr "A") t0; Tic (VStr "B") t1; Toc VNone t2; Toc VNone t3] in
  labels t = ["A"; "B"] /\ active_labels t = [] /\ length (seconds_list t) = 2%nat /\
  seconds_list t !! 0%nat = Some (walltime t).
Proof.
  repeat split. cbn. unfold walltime, fsum. cbn.
  rewrite FloatFacts.add_zero_abs. reflexivity.
Qed.

Example test_LabelPairedScheme :
  let t := run_on DEFAULT_NAME
             [Tic (VStr "A") t0; Tic (VStr "B") t1; Toc (VStr "A") t2; Toc (VStr "B") t3] in
  labels t = ["A"; "B"] /\ active_labels t = [] /\ length (seconds_list t) = 2%nat.
Proof. repeat split. Qed.

Example test_NoMatchedPair :
  toc VNone t0 (__init__ DEFAULT_NAME c) = Fail TimerError (__init__ DEFAULT_NAME c) /\
  let t := run_on DEFAULT_NAME [Tic (VStr "A") t0] in
  toc (VStr "B") t1 t = Fail TimerKeyError t.
Proof. repeat split. Qed.

Example test_InvalidTocKey :
  let t := run_on DEFAULT_NAME [Tic (VStr "A") t0] in
  Forall (fun keyval => toc keyval t1 t = Fail TimerTypeError t)
    [VInt 1; VFloat 1; VList [VStr "A"]; VDict [(VStr "A", VInt 1)]].
Proof. repeat constructor. Qed.

Example test_Clear :
  let t := clear (run_on "atimer" [Tic (VStr "A") t0; Toc VNone t1]) in
  name t = "atimer" /\ labels t = [] /\ active_labels t = [] /\
  seconds_list t = [] /\ minutes_list t = [].
Proof. repeat split. Qed.

Example test_Reset (cls : TimerClass) :
  let t := reset cls (run_on "atimer" [Tic (VStr "A") t0; Toc VNone t1]) in
  name t = "smarttimer" /\ labels t = [] /\ active_labels t = [] /\
  seconds_list t = [] /\ minutes_list t = [].
Proof. repeat split. Qed.

End Tests.

End TrackerFacts.

(** * The claims *)

(** A sample runtime for the closed examples: what [time.get_clock_info]
    answers under CPython on Linux (the resolution 1e-09 of the clocks is
    written in hexadecimal, 1e-06 likewise). *)
Definition linux_clock_info (name : string) : option clock_info :=
  if String.eqb name "perf_counter" then
    Some (mkInfo false "clock_gettime(CLOCK_MONOTONIC)" true 0x1.12e0be826d695p-30)
  else if String.eqb name "monotonic" then
    Some (mkInfo false "clock_gettime(CLOCK_MONOTONIC)" true 0x1.12e0be826d695p-30)
  else if String.eqb name "process_time" then
    Some (mkInfo false "clock_gettime(CLOCK_PROCESS_CPUTIME_ID)" true 0x1.12e0be826d695p-30)
  else if String.eqb name "time" then
    Some (mkInfo true "clock_gettime(CLOCK_REALTIME)" false 0x1.12e0be826d695p-30)
  else if String.eqb name "clock" then
    Some (mkInfo false "clock()" true 0x1.0c6f7a0b5ed8dp-20)
  else None.

(** A timing function of the user's, to be registered as ["custom_time"]. *)
Definition custom_time_function : clockfn := 6%positive.

(** Two timers as [Timer('a', seconds=5.)] and
    [Timer('b', seconds=7.5, clock_name='monotonic')] build them. *)
Definition timer_a : Timer :=
  mkTimer "a" 5 (5 / 60) (Some "perf_counter") (Some time_perf_counter).
Definition timer_b : Timer :=
  mkTimer "b" 7.5 (7.5 / 60) (Some "monotonic") (Some time_monotonic).

(** ** C1: [walltime] *)




(** ** C2: the rule of [toc] *)




(** ** C3: the [clock_name] setter *)

(** C3 (the code departs from the claim, and from its own docstring):
    setting the clock name of a [Timer] again, to the very name it has,
    zeroes the recorded seconds and minutes, in both packages.
    [Timer(seconds=5.)] is built on ["perf_counter"]; after
    [t.clock_name = 'perf_counter'] its seconds and minutes are [0.].  The
    setter asks [is_compatible] about the new name, a string, and
    [is_compatible] answers [False] to whatever is not a [Timer]. *)
Theorem clock_name_same_name_clears :
  Smarttimers.__init__ linux_clock_info Smarttimers.initial_class (VStr "a")
    (mkKwargs (Some (VFloat 5)) None None) = Ok timer_a /\
  Smarttimers.clock_name_setter linux_clock_info Smarttimers.initial_class
    (VStr "perf_counter") timer_a
  = Done (mkTimer "a" 0 0 (Some "perf_counter") (Some time_perf_counter)) /\
  Smarttimer.__init__ linux_clock_info Smarttimer.initial_class (VStr "a")
    (mkKwargs (Some (VFloat 5)) None None) = Ok timer_a /\
  Smarttimer.clock_name_setter linux_clock_info Smarttimer.initial_class
    (VStr "perf_counter") timer_a
  = Done (mkTimer "a" 0 0 (Some "perf_counter") (Some time_perf_counter)).
Proof. repeat split; vm_compute; reflexivity. Qed.

(** ** C4: operations on incompatible clocks *)

(** C4 (as amended): when [is_compatible] answers [False] (the second
    operand is not a [Timer], or the clocks differ), [+], [-], [<], [<=],
    [>] and [>=] raise [TimerCompatibilityError] in both packages; [==]
    raises it in the package [smarttimer] and returns [False] in the package
    [smarttimers]. *)
Theorem incompatible_operations (get_clock_info : string -> option clock_info)
    (cls : TimerClass) (self : Timer) (other : pyval) :
  (Smarttimers.is_compatible get_clock_info cls self other = Ok false ->
     Smarttimers.__add__ get_clock_info cls self other = Raise TimerCompatibilityError /\
     Smarttimers.__sub__ get_clock_info cls self other = Raise TimerCompatibilityError /\
     Smarttimers.__lt__ get_clock_info cls self other = Raise TimerCompatibilityError /\
     Smarttimers.__le__ get_clock_info cls self other = Raise TimerCompatibilityError /\
     Smarttimers.__gt__ get_clock_info cls self other = Raise TimerCompatibilityError /\
     Smarttimers.__ge__ get_clock_info cls self other = Raise TimerCompatibilityError /\
     Smarttimers.__eq__ get_clock_info cls self other = Ok false) /\
  (Smarttimer.is_compatible get_clock_info cls self other = Ok false ->
     Smarttimer.__add__ get_clock_info cls self other = Raise TimerCompatibilityError /\
     Smarttimer.__sub__ get_clock_info cls self other = Raise TimerCompatibilityError /\
     Smarttimer.__lt__ get_clock_info cls self other = Raise TimerCompatibilityError /\
     Smarttimer.__le__ get_clock_info cls self other = Raise TimerCompatibilityError /\
     Smarttimer.__gt__ get_clock_info cls self other = Raise TimerCompatibilityError /\
     Smarttimer.__ge__ get_clock_info cls self other = Raise TimerCompatibilityError /\
     Smarttimer.__eq__ get_clock_info cls self other = Raise TimerCompatibilityError) /\
  ((forall t, other <> VTimer t) ->
     Smarttimers.is_compatible get_clock_info cls self other = Ok false /\
     Smarttimer.is_compatible get_clock_info cls self other = Ok false).
Proof.
  split; [apply SmarttimersFacts.incompatible_ops|].
  split; [apply SmarttimerFacts.old_incompatible_ops|].
  intros H. split.
  - apply SmarttimersFacts.is_compatible_not_timer, H.
  - apply SmarttimerFacts.old_is_compatible_not_timer, H.
Qed.

(** [timer_a] on ["perf_counter"] against a timer on ["time"], and against
    the string ["a"]. *)
Lemma incompatible_operations_witness :
  Smarttimers.is_compatible linux_clock_info Smarttimers.initial_class timer_a
    (VTimer (mkTimer "w" 1 (1 / 60) (Some "time") (Some time_time))) = Ok false /\
  Smarttimers.__lt__ linux_clock_info Smarttimers.initial_class timer_a
    (VTimer (mkTimer "w" 1 (1 / 60) (Some "time") (Some time_time)))
  = Raise TimerCompatibilityError /\
  Smarttimer.__eq__ linux_clock_info Smarttimer.initial_class timer_a (VStr "a")
  = Raise TimerCompatibilityError.
Proof.
  pose proof (incompatible_operations linux_clock_info Smarttimers.initial_class timer_a
    (VTimer (mkTimer "w" 1 (1 / 60) (Some "time") (Some time_time)))) as [H1 _].
  pose proof (incompatible_operations linux_clock_info Smarttimer.initial_class timer_a
    (VStr "a")) as (_ & H2 & _).
  split; [vm_compute; reflexivity|].
  split; [apply H1; vm_compute; reflexivity|].
  apply H2. vm_compute. reflexivity.
Defined.

(** C4 (as stated) fails: in the package [smarttimers], [==] between a
    [Timer] and a value that is not a [Timer] returns [False]; it raises
    nothing. *)
Lemma eq_incompatible_returns_false :
  Smarttimers.is_compatible linux_clock_info Smarttimers.initial_class timer_a (VInt 1)
  = Ok false /\
  Smarttimers.__eq__ linux_clock_info Smarttimers.initial_class timer_a (VInt 1)
  = Ok false /\
  Smarttimers.__eq__ linux_clock_info Smarttimers.initial_class timer_a (VInt 1)
  <> Raise TimerCompatibilityError.
Proof. repeat split; [vm_compute; reflexivity ..| discriminate]. Qed.

(** ** C5: the invariant of the registry *)




(** ** C6: the invariant of a [Timer] *)




(** ** C7: the result of [-] and [+] *)

(** The join of two labels, written out: an empty label is left out. *)
Lemma join_labels_cases (sep x y : string) :
  join_labels sep x y =
    if String.eqb x "" then y
    else if String.eqb y "" then x
    else x ++ sep ++ y.
Proof.
  rewrite join_labels_spec. unfold nonempty.
  destruct (String.eqb_spec x ""), (String.eqb_spec y ""); subst; reflexivity.
Qed.

(** C7 (as amended): for compatible [Timer]s [a] and [b], whatever [a - b]
    returns has the seconds [abs(a.seconds - b.seconds)] and, as its label,
    the two labels joined with ["-"], an empty label being left out;
    whatever [a + b] returns has the seconds [a.seconds + b.seconds] and
    the labels joined with ["+"].  [a - b] returns that [Timer], on the
    clock of [a], when the clock name of [a] is not empty and is a key of
    the registry, and so does [a + b] when moreover the seconds of [a] and
    [b] are not negative.  When the clock name of [a] is not empty and is
    not a key of the registry, [a - b] raises [KeyError] ([TimerKeyError]
    in the package [smarttimer]) although the two are compatible, and so
    does [a + b] of operands whose seconds are not negative.  In both
    packages. *)
Theorem sub_add_result (get_clock_info : string -> option clock_info)
    (cls : TimerClass) (a b : Timer) :
  let label_of (sep : string) :=
    if String.eqb (_label a) "" then _label b
    else if String.eqb (_label b) "" then _label a
    else _label a ++ sep ++ _label b in
  (* whatever is returned *)
  (forall t, Smarttimers.__sub__ get_clock_info cls a (VTimer b) = Ok t ->
     _seconds t = abs (_seconds a - _seconds b) /\ _label t = label_of "-") /\
  (forall t, Smarttimers.__add__ get_clock_info cls a (VTimer b) = Ok t ->
     _seconds t = (_seconds a + _seconds b)%float /\ _label t = label_of "+") /\
  (forall t, Smarttimer.__sub__ get_clock_info cls a (VTimer b) = Ok t ->
     _seconds t = abs (_seconds a - _seconds b) /\ _label t = label_of "-") /\
  (forall t, Smarttimer.__add__ get_clock_info cls a (VTimer b) = Ok t ->
     _seconds t = (_seconds a + _seconds b)%float /\ _label t = label_of "+") /\
  (* a result is returned on a registered clock *)
  (forall n g,
     Smarttimers.is_compatible get_clock_info cls a (VTimer b) = Ok true ->
     _clock_name a = Some n -> n <> "" -> CLOCKS cls !! n = Some g ->
     Smarttimers.__sub__ get_clock_info cls a (VTimer b)
     = Ok (mkTimer (label_of "-")
             (abs (_seconds a - _seconds b))
             (abs (_seconds a - _seconds b) / 60)%float (Some n) (Some g)) /\
     ((_seconds a <? 0)%float = false -> (_seconds b <? 0)%float = false ->
      Smarttimers.__add__ get_clock_info cls a (VTimer b)
      = Ok (mkTimer (label_of "+")
              (_seconds a + _seconds b)
              ((_seconds a + _seconds b) / 60)%float (Some n) (Some g)))) /\
  (forall n g,
     Smarttimer.is_compatible get_clock_info cls a (VTimer b) = Ok true ->
     _clock_name a = Some n -> n <> "" -> CLOCKS cls !! n = Some g ->
     Smarttimer.__sub__ get_clock_info cls a (VTimer b)
     = Ok (mkTimer (label_of "-")
             (abs (_seconds a - _seconds b))
             (abs (_seconds a - _seconds b) / 60)%float (Some n) (Some g)) /\
     ((_seconds a <? 0)%float = false -> (_seconds b <? 0)%float = false ->
      Smarttimer.__add__ get_clock_info cls a (VTimer b)
      = Ok (mkTimer (label_of "+")
              (_seconds a + _seconds b)
              ((_seconds a + _seconds b) / 60)%float (Some n) (Some g)))) /\
  (* and none on a clock that is not registered *)
  (forall n,
     Smarttimers.is_compatible get_clock_info cls a (VTimer b) = Ok true ->
     _clock_name a = Some n -> n <> "" -> CLOCKS cls !! n = None ->
     Smarttimers.__sub__ get_clock_info cls a (VTimer b) = Raise KeyError /\
     ((_seconds a <? 0)%float = false -> (_seconds b <? 0)%float = false ->
      Smarttimers.__add__ get_clock_info cls a (VTimer b) = Raise KeyError)) /\
  (forall n,
     Smarttimer.is_compatible get_clock_info cls a (VTimer b) = Ok true ->
     _clock_name a = Some n -> n <> "" -> CLOCKS cls !! n = None ->
     Smarttimer.__sub__ get_clock_info cls a (VTimer b) = Raise TimerKeyError /\
     ((_seconds a <? 0)%float = false -> (_seconds b <? 0)%float = false ->
      Smarttimer.__add__ get_clock_info cls a (VTimer b) = Raise TimerKeyError)).
Proof.
  intros label_of.
  assert (Hj : forall sep, join_labels sep (_label a) (_label b) = label_of sep)
    by (intros sep; apply join_labels_cases).
  split_and!.
  - intros t H. apply SmarttimersFacts.sub_inv in H as (b' & [= <-] & Hs & _ & Hl).
    rewrite <- Hj. auto.
  - intros t H. apply SmarttimersFacts.add_inv in H as (b' & [= <-] & Hs & _ & Hl).
    rewrite <- Hj. auto.
  - intros t H. apply SmarttimerFacts.old_sub_inv in H as (b' & [= <-] & Hs & _ & Hl).
    rewrite <- Hj. auto.
  - intros t H. apply SmarttimerFacts.old_add_inv in H as (b' & [= <-] & Hs & _ & Hl).
    rewrite <- Hj. auto.
  - intros n g Hc Hn Hne Hg. rewrite <- !Hj. split.
    + eapply SmarttimersFacts.sub_compatible; eauto.
    + intros Ha Hb. eapply SmarttimersFacts.add_compatible; eauto.
  - intros n g Hc Hn Hne Hg. rewrite <- !Hj. split.
    + eapply SmarttimerFacts.old_sub_compatible; eauto.
    + intros Ha Hb. eapply SmarttimerFacts.old_add_compatible; eauto.
  - intros n Hc Hn Hne Hk. split.
    + eapply SmarttimersFacts.sub_unregistered; eauto.
    + intros Ha Hb. eapply SmarttimersFacts.add_unregistered; eauto.
  - intros n Hc Hn Hne Hk. split.
    + eapply SmarttimerFacts.old_sub_unregistered; eauto.
    + intros Ha Hb. eapply SmarttimerFacts.old_add_unregistered; eauto.
Qed.

(** [Timer('', seconds=5.) - timer_b]: ["perf_counter"] and ["monotonic"]
    are compatible on Linux; 2.5 seconds, and the label is ["b"] alone,
    the empty label of the left operand being left out. *)
Lemma sub_add_result_witness :
  Smarttimers.__sub__ linux_clock_info Smarttimers.initial_class
    (mkTimer "" 5 (5 / 60) (Some "perf_counter") (Some time_perf_counter))
    (VTimer timer_b)
  = Ok (mkTimer "b" 2.5 (2.5 / 60) (Some "perf_counter") (Some time_perf_counter)).
Proof.
  pose proof (sub_add_result linux_clock_info Smarttimers.initial_class
                (mkTimer "" 5 (5 / 60) (Some "perf_counter") (Some time_perf_counter))
                timer_b) as (_ & _ & _ & _ & H & _).
  destruct (H "perf_counter" time_perf_counter) as [Hs _];
    [vm_compute; reflexivity | reflexivity | discriminate | reflexivity |].
  rewrite Hs. vm_compute. reflexivity.
Defined.

(** C7 (as stated) fails: two compatible [Timer]s whose difference is not
    a [Timer].  [timer_a] was built on ["perf_counter"]; after
    [Timer.unregister_clock('perf_counter')] the runtime still describes
    the clocks of [timer_a] and [timer_b] alike, so they are compatible, but
    [timer_a - timer_b] and [timer_a + timer_b] raise [KeyError]: the
    result is built on the clock name of [timer_a], which the registry no
    longer holds.  In the package [smarttimer] the error is
    [TimerKeyError]. *)
Lemma sub_raises_unregistered_clock :
  exists cls,
    Smarttimers.unregister_clock (VStr "perf_counter") Smarttimers.initial_class
    = Done cls /\
    Smarttimers.is_compatible linux_clock_info cls timer_a (VTimer timer_b) = Ok true /\
    Smarttimers.__sub__ linux_clock_info cls timer_a (VTimer timer_b) = Raise KeyError /\
    Smarttimers.__add__ linux_clock_info cls timer_a (VTimer timer_b) = Raise KeyError /\
    Smarttimer.unregister_clock (VStr "perf_counter") Smarttimer.initial_class
    = Done cls /\
    Smarttimer.is_compatible linux_clock_info cls timer_a (VTimer timer_b) = Ok true /\
    Smarttimer.__sub__ linux_clock_info cls timer_a (VTimer timer_b)
    = Raise TimerKeyError.
Proof.
  eexists.
  split; [vm_compute; reflexivity|].
  split; [vm_compute; reflexivity|].
  split; [vm_compute; reflexivity|].
  split; [vm_compute; reflexivity|].
  split; [vm_compute; reflexivity|].
  split; vm_compute; reflexivity.
Qed.

(** ** C8: [clear] and [reset] *)

Lemma smarttimers_reset_eq gci cls self g :
  CLOCKS cls !! DEFAULT_CLOCK_NAME cls = Some g ->
  Smarttimers.reset gci cls self
  = Done (mkTimer "" 0 0 (Some (DEFAULT_CLOCK_NAME cls)) (Some g)).
Proof.
  intros Hg. unfold Smarttimers.reset. cbn [Smarttimers.label_setter and_then].
  destruct (_clock_name self) as [prev|] eqn:Hp.
  - rewrite (SmarttimersFacts.clock_name_setter_again gci cls _ prev) by exact Hp.
    cbn zeta. destruct (nonempty _); rewrite Hg; reflexivity.
  - rewrite SmarttimersFacts.clock_name_setter_first by exact Hp.
    cbn zeta. destruct (nonempty _); rewrite Hg; reflexivity.
Qed.

Lemma smarttimer_reset_eq gci cls self g :
  CLOCKS cls !! DEFAULT_CLOCK_NAME cls = Some g ->
  Smarttimer.reset gci cls self
  = Done (mkTimer "" 0 0 (Some (DEFAULT_CLOCK_NAME cls)) (Some g)).
Proof.
  intros Hg. unfold Smarttimer.reset. cbn [Smarttimer.id_setter and_then].
  destruct (_clock_name self) as [prev|] eqn:Hp.
  - rewrite (SmarttimerFacts.old_clock_name_setter_again gci cls _ prev) by exact Hp.
    cbn zeta. destruct (nonempty _); rewrite Hg; reflexivity.
  - rewrite SmarttimerFacts.old_clock_name_setter_first by exact Hp.
    cbn zeta. destruct (nonempty _); rewrite Hg; reflexivity.
Qed.

(** [reset] when the default clock name is not a key of the registry: the
    [clock_name] setter raises after the label was emptied, the time zeroed
    and the name stored; the timing function is the previous one. *)
Lemma smarttimers_reset_unregistered gci cls self prev :
  _clock_name self = Some prev ->
  CLOCKS cls !! DEFAULT_CLOCK_NAME cls = None ->
  Smarttimers.reset gci cls self
  = Fail KeyError (mkTimer "" 0 0 (Some (DEFAULT_CLOCK_NAME cls)) (_clock self)).
Proof.
  intros Hp Hg. unfold Smarttimers.reset. cbn [Smarttimers.label_setter and_then].
  rewrite (SmarttimersFacts.clock_name_setter_again gci cls _ prev) by exact Hp.
  cbn zeta. destruct (nonempty _); rewrite Hg; reflexivity.
Qed.

Lemma smarttimer_reset_unregistered gci cls self prev :
  _clock_name self = Some prev ->
  CLOCKS cls !! DEFAULT_CLOCK_NAME cls = None ->
  Smarttimer.reset gci cls self
  = Fail TimerKeyError (mkTimer "" 0 0 (Some (DEFAULT_CLOCK_NAME cls)) (_clock self)).
Proof.
  intros Hp Hg. unfold Smarttimer.reset. cbn [Smarttimer.id_setter and_then].
  rewrite (SmarttimerFacts.old_clock_name_setter_again gci cls _ prev) by exact Hp.
  cbn zeta. destruct (nonempty _); rewrite Hg; reflexivity.
Qed.

(** C8 (as amended): on a tracker, [clear] empties the closed records and
    the pending stack and keeps the name (and the clock name); [reset]
    empties them too and restores the default name ["smarttimer"] and the
    default clock name.  On a [Timer], [clear] zeroes the two time values
    and nothing else; [reset] also empties the label and restores the
    default clock name when that name is a key of the registry; when it is
    not, [reset] of a [Timer] that has a clock name raises [KeyError]
    ([TimerKeyError] in the package [smarttimer]) and leaves the label
    empty, the time zero and the default name stored, with the timing
    function the [Timer] had.  In both packages. *)
Theorem clear_reset_frame (get_clock_info : string -> option clock_info)
    (cls : TimerClass) (st : Tracker.SmartTimer) (self : Timer) :
  (Tracker.records (Tracker.clear st) = [] /\
   Tracker.timer_stack (Tracker.clear st) = [] /\
   Tracker.name (Tracker.clear st) = Tracker.name st /\
   Tracker.clock (Tracker.clear st) = Tracker.clock st) /\
  (Tracker.records (Tracker.reset cls st) = [] /\
   Tracker.timer_stack (Tracker.reset cls st) = [] /\
   Tracker.name (Tracker.reset cls st) = Tracker.DEFAULT_NAME /\
   Tracker.clock (Tracker.reset cls st) = DEFAULT_CLOCK_NAME cls) /\
  Smarttimers.clear self
  = Done (mkTimer (_label self) 0 0 (_clock_name self) (_clock self)) /\
  Smarttimer.clear self
  = Done (mkTimer (_label self) 0 0 (_clock_name self) (_clock self)) /\
  (forall g, CLOCKS cls !! DEFAULT_CLOCK_NAME cls = Some g ->
     Smarttimers.reset get_clock_info cls self
     = Done (mkTimer "" 0 0 (Some (DEFAULT_CLOCK_NAME cls)) (Some g)) /\
     Smarttimer.reset get_clock_info cls self
     = Done (mkTimer "" 0 0 (Some (DEFAULT_CLOCK_NAME cls)) (Some g))) /\
  (forall prev, _clock_name self = Some prev ->
     CLOCKS cls !! DEFAULT_CLOCK_NAME cls = None ->
     Smarttimers.reset get_clock_info cls self
     = Fail KeyError (mkTimer "" 0 0 (Some (DEFAULT_CLOCK_NAME cls)) (_clock self)) /\
     Smarttimer.reset get_clock_info cls self
     = Fail TimerKeyError
         (mkTimer "" 0 0 (Some (DEFAULT_CLOCK_NAME cls)) (_clock self))).
Proof.
  split_and!; try reflexivity.
  - intros g Hg. split; [apply smarttimers_reset_eq | apply smarttimer_reset_eq]; exact Hg.
  - intros prev Hp Hg.
    split; [eapply smarttimers_reset_unregistered | eapply smarttimer_reset_unregistered];
      eassumption.
Qed.

(** [timer_b.reset()]: back on ["perf_counter"], no label, no time. *)
Lemma clear_reset_frame_witness :
  Smarttimers.reset linux_clock_info Smarttimers.initial_class timer_b
  = Done (mkTimer "" 0 0 (Some "perf_counter") (Some time_perf_counter)).
Proof.
  pose proof (clear_reset_frame linux_clock_info Smarttimers.initial_class
    (Tracker.__init__ "atimer" "perf_counter") timer_b) as (_ & _ & _ & _ & H & _).
  destruct (H time_perf_counter) as [Hr _]; [reflexivity|]. exact Hr.
Defined.

(** C8 (as stated) fails: [reset] does not leave the name of the tracker
    unchanged.  As in [test_Reset]: a tracker named ["atimer"], one
    interval, then [reset]; the name is ["smarttimer"]. *)
Lemma tracker_reset_restores_name :
  exists st,
    Tracker.run [Tracker.Tic (VStr "A") 1; Tracker.Toc VNone 2]
      (Tracker.__init__ "atimer" "perf_counter") = Done st /\
    Tracker.name st = "atimer" /\
    Tracker.name (Tracker.reset Smarttimers.initial_class st) = "smarttimer" /\
    Tracker.name (Tracker.reset Smarttimers.initial_class st) <> Tracker.name st /\
    Tracker.labels (Tracker.reset Smarttimers.initial_class st) = [] /\
    Tracker.active_labels (Tracker.reset Smarttimers.initial_class st) = [].
Proof.
  eexists. split; [vm_compute; reflexivity|].
  repeat split; try reflexivity. discriminate.
Qed.

(** ** C9: construction by copy *)

(** C9 (as amended): [Timer(label, timer=src)], for a [src] whose seconds
    are not negative, whose minutes are its seconds over 60 and whose clock
    name is not empty (a [Timer] as the constructors build them): whenever
    the constructor returns, the new [Timer] has the seconds, the minutes
    and the clock name of [src], and its label is the argument, not the
    label of [src]; the keywords [seconds] and [clock_name] are ignored.
    With a label that is a string, it returns when the clock name of [src]
    is a key of the registry, and it raises [KeyError] ([TimerKeyError] in
    the package [smarttimer]) when that name is not a key of the
    registry. *)
Theorem copy_constructor (get_clock_info : string -> option clock_info)
    (cls : TimerClass) (src : Timer) (n : string) (label : pyval)
    (seconds clock_name : option pyval) :
  time_ok src -> _clock_name src = Some n -> n <> "" ->
  (forall t,
     Smarttimers.__init__ get_clock_info cls label
       (mkKwargs seconds clock_name (Some (VTimer src))) = Ok t ->
     _seconds t = _seconds src /\ _minutes t = _minutes src /\
     _clock_name t = _clock_name src /\ label = VStr (_label t)) /\
  (forall t,
     Smarttimer.__init__ get_clock_info cls label
       (mkKwargs seconds clock_name (Some (VTimer src))) = Ok t ->
     _seconds t = _seconds src /\ _minutes t = _minutes src /\
     _clock_name t = _clock_name src /\ label = VStr (_label t)) /\
  (forall l g, label = VStr l -> CLOCKS cls !! n = Some g ->
     Smarttimers.__init__ get_clock_info cls label
       (mkKwargs seconds clock_name (Some (VTimer src)))
     = Ok (mkTimer l (_seconds src) (_minutes src) (Some n) (Some g)) /\
     Smarttimer.__init__ get_clock_info cls label
       (mkKwargs seconds clock_name (Some (VTimer src)))
     = Ok (mkTimer l (_seconds src) (_minutes src) (Some n) (Some g))) /\
  (forall l, label = VStr l -> CLOCKS cls !! n = None ->
     Smarttimers.__init__ get_clock_info cls label
       (mkKwargs seconds clock_name (Some (VTimer src)))
     = Raise KeyError /\
     Smarttimer.__init__ get_clock_info cls label
       (mkKwargs seconds clock_name (Some (VTimer src)))
     = Raise TimerKeyError).
Proof.
  intros Hok Hn Hne. pose proof Hok as [_ Hm]. split_and!.
  - intros t H.
    apply SmarttimersFacts.init_copy_inv in H as (l & n' & -> & Hn' & Hl & Hs & Hm' & Hc).
    rewrite Hn in Hn'. injection Hn' as <-.
    rewrite (nonempty_true _ Hne) in Hc. rewrite Hs, Hm', Hm, Hc, Hn, Hl. auto.
  - intros t H.
    apply SmarttimerFacts.old_init_copy_inv in H as (l & n' & -> & Hn' & Hl & Hs & Hm' & Hc).
    rewrite Hn in Hn'. injection Hn' as <-.
    rewrite (nonempty_true _ Hne) in Hc. rewrite Hs, Hm', Hm, Hc, Hn, Hl. auto.
  - intros l g -> Hg. split.
    + apply SmarttimersFacts.init_copy; auto.
    + apply SmarttimerFacts.old_init_copy; auto.
  - intros l -> Hg. split.
    + apply (SmarttimersFacts.init_copy_unregistered _ _ _ _ n); auto.
    + apply (SmarttimerFacts.old_init_copy_unregistered _ _ _ _ n); auto.
Qed.

(** [Timer(timer=timer_b)]: the label is the default, the empty string. *)
Lemma copy_constructor_witness :
  Smarttimers.__init__ linux_clock_info Smarttimers.initial_class (VStr "")
    (mkKwargs None None (Some (VTimer timer_b)))
  = Ok (mkTimer "" 7.5 (7.5 / 60) (Some "monotonic") (Some time_monotonic)).
Proof.
  pose proof (copy_constructor linux_clock_info Smarttimers.initial_class timer_b
    "monotonic" (VStr "") None None) as H.
  destruct H as (_ & _ & H & _);
    [split; vm_compute; reflexivity | reflexivity | discriminate |].
  destruct (H "" time_monotonic eq_refl) as [Hs _]; [reflexivity|].
  exact Hs.
Defined.

(** C9 (as stated) fails: a copy that yields no instance.  A timing
    function is registered as ["custom_time"], a [Timer] of 3 seconds is
    built on it, the clock is unregistered; [Timer(timer=t)] then raises
    [KeyError] ([TimerKeyError] in the package [smarttimer]): the copy
    looks the clock name of [t] up in the registry.  And a copy on another
    clock name: in the package [smarttimer], with the default clock name
    set to [''] and a function registered under [''], [Timer('s')] is on
    the clock name ['']; once the default clock name is ["perf_counter"]
    again, its copy is on ["perf_counter"]. *)
Lemma copy_raises_unregistered_clock :
  (exists cls1 t,
    Smarttimers.register_clock (VStr "custom_time") (VFunc custom_time_function)
      Smarttimers.initial_class = Done cls1 /\
    Smarttimers.__init__ linux_clock_info cls1 (VStr "t")
      (mkKwargs (Some (VFloat 3)) (Some (VStr "custom_time")) None) = Ok t /\
    Smarttimers.unregister_clock (VStr "custom_time") cls1
    = Done Smarttimers.initial_class /\
    Smarttimers.__init__ linux_clock_info Smarttimers.initial_class (VStr "")
      (mkKwargs None None (Some (VTimer t)))
    = Raise KeyError /\
    Smarttimer.__init__ linux_clock_info cls1 (VStr "t")
      (mkKwargs (Some (VFloat 3)) (Some (VStr "custom_time")) None) = Ok t /\
    Smarttimer.__init__ linux_clock_info Smarttimer.initial_class (VStr "")
      (mkKwargs None None (Some (VTimer t)))
    = Raise TimerKeyError) /\
  (exists cls1 cls2 cls3 s t,
    SmarttimerRest.DEFAULT_CLOCK_NAME_setter (VStr "") Smarttimer.initial_class
    = Done cls1 /\
    Smarttimer.register_clock (VStr "") (VFunc custom_time_function) cls1 = Done cls2 /\
    Smarttimer.__init__ linux_clock_info cls2 (VStr "s") (mkKwargs None None None)
    = Ok s /\
    _clock_name s = Some "" /\
    SmarttimerRest.DEFAULT_CLOCK_NAME_setter (VStr "perf_counter") cls2 = Done cls3 /\
    Smarttimer.__init__ linux_clock_info cls3 (VStr "")
      (mkKwargs None None (Some (VTimer s))) = Ok t /\
    _clock_name t = Some "perf_counter").
Proof.
  split.
  - eexists. eexists.
    split; [vm_compute; reflexivity|].
    split; [vm_compute; reflexivity|].
    split; [vm_compute; reflexivity|].
    split; [vm_compute; reflexivity|].
    split; vm_compute; reflexivity.
  - do 5 eexists.
    split; [vm_compute; reflexivity|].
    split; [vm_compute; reflexivity|].
    split; [vm_compute; reflexivity|].
    split; [vm_compute; reflexivity|].
    split; [vm_compute; reflexivity|].
    split; vm_compute; reflexivity.
Qed.

(** ** C10: [==] in the package [smarttimers] *)




(** * Further properties of the code *)

(** ** Floats: order, commutativity *)

Module FloatOrder.

Local Open Scope Z_scope.

Lemma compare_cont_Eq_antisym m1 m2 :
  Pos.compare_cont Eq m2 m1 = CompOpp (Pos.compare_cont Eq m1 m2).
Proof. symmetry. apply (Pos.compare_cont_antisym m1 m2 Eq). Qed.

Lemma SFcompare_antisym x y : SFcompare y x = option_map CompOpp (SFcompare x y).
Proof.
  destruct x as [sx|sx| |sx mx ex], y as [sy|sy| |sy my ey];
    try destruct sx; try destruct sy; try reflexivity; simpl;
    rewrite (Z.compare_antisym ex ey); destruct (ex ?= ey); simpl; try reflexivity;
    rewrite (compare_cont_Eq_antisym mx my); try reflexivity;
    rewrite CompOpp_involutive; reflexivity.
Qed.

Lemma Prim2SF_nan x : Prim2SF x = S754_nan -> x = nan.
Proof. intros E. rewrite <- (SF2Prim_Prim2SF x), E. reflexivity. Qed.

Lemma eqb_sym x y : (x =? y)%float = (y =? x)%float.
Proof.
  rewrite !FloatAxioms.eqb_spec. unfold SFeqb.
  rewrite (SFcompare_antisym (Prim2SF y) (Prim2SF x)).
  destruct (SFcompare (Prim2SF y) (Prim2SF x)) as [[| |]|]; reflexivity.
Qed.

Lemma leb_ltb_eqb x y : (x <=? y)%float = ((x <? y)%float || (x =? y)%float).
Proof.
  rewrite FloatAxioms.leb_spec, FloatAxioms.ltb_spec, FloatAxioms.eqb_spec.
  unfold SFleb, SFltb, SFeqb. destruct (SFcompare _ _) as [[| |]|]; reflexivity.
Qed.

Lemma SFcompare_not_nan x y :
  x <> nan -> y <> nan -> exists c, SFcompare (Prim2SF x) (Prim2SF y) = Some c.
Proof.
  intros Hx Hy.
  destruct (Prim2SF x) as [sx|sx| |sx mx ex] eqn:Ex; [| |exfalso; apply Hx, Prim2SF_nan, Ex|];
  destruct (Prim2SF y) as [sy|sy| |sy my ey] eqn:Ey;
    try (exfalso; apply Hy, Prim2SF_nan, Ey); simpl; eauto.
Qed.

Lemma not_ltb_leb x y : x <> nan -> y <> nan -> negb (x <? y)%float = (y <=? x)%float.
Proof.
  intros Hx Hy. rewrite FloatAxioms.leb_spec, FloatAxioms.ltb_spec. unfold SFleb, SFltb.
  rewrite (SFcompare_antisym (Prim2SF x) (Prim2SF y)).
  destruct (SFcompare_not_nan x y Hx Hy) as [c ->]. destruct c; reflexivity.
Qed.

Lemma not_leb_ltb x y : x <> nan -> y <> nan -> negb (x <=? y)%float = (y <? x)%float.
Proof.
  intros Hx Hy. rewrite FloatAxioms.leb_spec, FloatAxioms.ltb_spec. unfold SFleb, SFltb.
  rewrite (SFcompare_antisym (Prim2SF x) (Prim2SF y)).
  destruct (SFcompare_not_nan x y Hx Hy) as [c ->]. destruct c; reflexivity.
Qed.

Lemma nan_compare y :
  (nan <? y)%float = false /\ (y <? nan)%float = false /\
  (nan =? y)%float = false /\ (y =? nan)%float = false.
Proof.
  rewrite !FloatAxioms.ltb_spec, !FloatAxioms.eqb_spec.
  change (Prim2SF nan) with S754_nan.
  destruct (Prim2SF y); repeat split; reflexivity.
Qed.

Lemma SFadd_comm x y : SFadd prec emax x y = SFadd prec emax y x.
Proof.
  destruct x as [sx|sx| |sx mx ex], y as [sy|sy| |sy my ey];
    try destruct sx; try destruct sy; try reflexivity;
    unfold SFadd; rewrite (Z.min_comm ey ex), Z.add_comm; reflexivity.
Qed.

Lemma add_comm x y : (x + y)%float = (y + x)%float.
Proof. apply Prim2SF_inj. rewrite !add_spec. apply SFadd_comm. Qed.

Lemma SFabs_binary_round s s' m e :
  SFabs (binary_round prec emax s m e) = SFabs (binary_round prec emax s' m e).
Proof.
  unfold binary_round. destruct (shl_align _ _ _) as [mz ez].
  unfold binary_round_aux.
  destruct (shr_fexp prec emax (Z.pos mz) ez loc_Exact) as [mrs' e'].
  destruct (shr_fexp prec emax _ e' loc_Exact) as [mrs'' e''].
  destruct (shr_m mrs''); [reflexivity| |reflexivity].
  destruct (Z.leb _ _); reflexivity.
Qed.

Lemma SFabs_binary_normalize_opp m e sz :
  SFabs (binary_normalize prec emax (- m) e sz) = SFabs (binary_normalize prec emax m e sz).
Proof. destruct m; simpl; [reflexivity| |]; apply SFabs_binary_round. Qed.

Lemma SFabs_sub_sym x y : SFabs (SFsub prec emax x y) = SFabs (SFsub prec emax y x).
Proof.
  destruct x as [sx|sx| |sx mx ex], y as [sy|sy| |sy my ey];
    try (destruct sx, sy; reflexivity); try (destruct sx; reflexivity);
    try (destruct sy; reflexivity); try reflexivity.
  unfold SFsub. rewrite (Z.min_comm ey ex).
  set (ez := Z.min ex ey).
  set (A := cond_Zopp sx (Z.pos (fst (shl_align mx ex ez)))).
  set (B := cond_Zopp sy (Z.pos (fst (shl_align my ey ez)))).
  replace (B - A) with (- (A - B)) by lia.
  symmetry. apply SFabs_binary_normalize_opp.
Qed.

Lemma abs_sub_sym x y : abs (x - y) = abs (y - x).
Proof. apply Prim2SF_inj. rewrite !abs_spec, !sub_spec. apply SFabs_sub_sym. Qed.

End FloatOrder.

(** ** Compatibility *)

Lemma bool_eqb_sym a b : Bool.eqb a b = Bool.eqb b a.
Proof. destruct a, b; reflexivity. Qed.

Lemma clock_info_eqb_sym i j : clock_info_eqb i j = clock_info_eqb j i.
Proof.
  unfold clock_info_eqb.
  rewrite (bool_eqb_sym (adjustable i)), (bool_eqb_sym (monotonic i)),
    (String.eqb_sym (implementation i)), (FloatOrder.eqb_sym (resolution i)).
  reflexivity.
Qed.

Lemma same_clock_info_sym gci a b na nb :
  _clock_name a = Some na -> _clock_name b = Some nb ->
  Smarttimers.same_clock_info gci a b = Smarttimers.same_clock_info gci b a.
Proof.
  intros Ha Hb. unfold Smarttimers.same_clock_info. rewrite Ha, Hb. simpl.
  destruct (gci na) as [i|], (gci nb) as [j|]; simpl; try reflexivity.
  rewrite clock_info_eqb_sym. reflexivity.
Qed.

Lemma smarttimers_is_compatible_sym gci cls a b na nb :
  _clock_name a = Some na -> _clock_name b = Some nb ->
  Smarttimers.is_compatible gci cls a (VTimer b)
  = Smarttimers.is_compatible gci cls b (VTimer a).
Proof.
  intros Ha Hb. unfold Smarttimers.is_compatible.
  rewrite (same_clock_info_sym gci a b na nb Ha Hb).
  destruct (Smarttimers.same_clock_info gci b a); [reflexivity|].
  unfold clock_name, Smarttimers.CLOCKS_getitem. rewrite Ha, Hb. simpl.
  destruct (CLOCKS cls !! na) as [f|], (CLOCKS cls !! nb) as [g|]; simpl; try reflexivity.
  rewrite Pos.eqb_sym. reflexivity.
Qed.

Lemma smarttimer_is_compatible_sym gci cls a b na nb :
  _clock_name a = Some na -> _clock_name b = Some nb ->
  Smarttimer.is_compatible gci cls a (VTimer b)
  = Smarttimer.is_compatible gci cls b (VTimer a).
Proof.
  intros Ha Hb. unfold Smarttimer.is_compatible.
  change (Smarttimer.same_clock_info gci) with (Smarttimers.same_clock_info gci).
  rewrite (same_clock_info_sym gci a b na nb Ha Hb).
  destruct (Smarttimers.same_clock_info gci b a); [reflexivity|].
  unfold clock_name. rewrite Ha, Hb. simpl.
  rewrite !SmarttimerFacts.old_CLOCKS_getitem_eq.
  destruct (CLOCKS cls !! na) as [f|], (CLOCKS cls !! nb) as [g|]; simpl; try reflexivity.
  rewrite Pos.eqb_sym. reflexivity.
Qed.

(** X1: [is_compatible] and [==] are symmetric.  For two [Timer]s that have
    a clock name (every constructed [Timer] has one), [a.is_compatible(b)]
    and [b.is_compatible(a)] give the same answer or raise the same
    exception, and so do [a == b] and [b == a], in both packages. *)
Theorem compatibility_and_equality_symmetric
    (get_clock_info : string -> option clock_info) (cls : TimerClass)
    (a b : Timer) (na nb : string) :
  _clock_name a = Some na -> _clock_name b = Some nb ->
  Smarttimers.is_compatible get_clock_info cls a (VTimer b)
  = Smarttimers.is_compatible get_clock_info cls b (VTimer a) /\
  Smarttimers.__eq__ get_clock_info cls a (VTimer b)
  = Smarttimers.__eq__ get_clock_info cls b (VTimer a) /\
  Smarttimer.is_compatible get_clock_info cls a (VTimer b)
  = Smarttimer.is_compatible get_clock_info cls b (VTimer a) /\
  Smarttimer.__eq__ get_clock_info cls a (VTimer b)
  = Smarttimer.__eq__ get_clock_info cls b (VTimer a).
Proof.
  intros Ha Hb.
  pose proof (smarttimers_is_compatible_sym get_clock_info cls a b na nb Ha Hb) as H1.
  pose proof (smarttimer_is_compatible_sym get_clock_info cls a b na nb Ha Hb) as H2.
  split_and!; try assumption.
  - unfold Smarttimers.__eq__. rewrite H1.
    destruct (Smarttimers.is_compatible _ _ b _) as [[|]|]; simpl; try reflexivity.
    rewrite FloatOrder.eqb_sym. reflexivity.
  - unfold Smarttimer.__eq__. rewrite H2.
    destruct (Smarttimer.is_compatible _ _ b _) as [[|]|]; simpl; try reflexivity.
    rewrite FloatOrder.eqb_sym. reflexivity.
Qed.

Lemma compatibility_and_equality_symmetric_witness :
  Smarttimers.__eq__ linux_clock_info Smarttimers.initial_class timer_a (VTimer timer_b)
  = Smarttimers.__eq__ linux_clock_info Smarttimers.initial_class timer_b (VTimer timer_a).
Proof.
  apply (compatibility_and_equality_symmetric linux_clock_info Smarttimers.initial_class
           timer_a timer_b "perf_counter" "monotonic"); reflexivity.
Defined.

(** X2: two [Timer]s on the same clock name are compatible, in both
    packages, when the runtime knows the name and its description equals
    itself (its resolution is not a NaN), or when the runtime does not know
    the name and the registry holds it. *)
Theorem same_clock_name_compatible
    (get_clock_info : string -> option clock_info) (cls : TimerClass)
    (a b : Timer) (n : string) :
  _clock_name a = Some n -> _clock_name b = Some n ->
  match get_clock_info n with
  | Some i => clock_info_eqb i i = true
  | None => is_Some (CLOCKS cls !! n)
  end ->
  Smarttimers.is_compatible get_clock_info cls a (VTimer b) = Ok true /\
  Smarttimer.is_compatible get_clock_info cls a (VTimer b) = Ok true.
Proof.
  intros Ha Hb H.
  unfold Smarttimers.is_compatible, Smarttimer.is_compatible.
  change (Smarttimer.same_clock_info get_clock_info)
    with (Smarttimers.same_clock_info get_clock_info).
  unfold Smarttimers.same_clock_info, clock_name. rewrite Ha, Hb. simpl.
  destruct (get_clock_info n) as [i|]; simpl.
  - rewrite H. auto.
  - destruct H as [f Hf].
    rewrite !SmarttimerFacts.old_CLOCKS_getitem_eq.
    unfold Smarttimers.CLOCKS_getitem. rewrite Hf. simpl.
    rewrite Pos.eqb_refl. auto.
Qed.

Lemma same_clock_name_compatible_witness :
  Smarttimers.is_compatible linux_clock_info Smarttimers.initial_class timer_a
    (VTimer timer_a) = Ok true.
Proof.
  apply (same_clock_name_compatible linux_clock_info Smarttimers.initial_class
           timer_a timer_a "perf_counter"); reflexivity.
Defined.

(** ** Comparisons *)

Lemma smarttimers_compare a b gci cls :
  Smarttimers.is_compatible gci cls a (VTimer b) = Ok true ->
  Smarttimers.__lt__ gci cls a (VTimer b) = Ok (_seconds a <? _seconds b)%float /\
  Smarttimers.__eq__ gci cls a (VTimer b) = Ok (_seconds a =? _seconds b)%float /\
  Smarttimers.__le__ gci cls a (VTimer b) = Ok (_seconds a <=? _seconds b)%float /\
  Smarttimers.__gt__ gci cls a (VTimer b) = Ok (negb (_seconds a <=? _seconds b)%float) /\
  Smarttimers.__ge__ gci cls a (VTimer b) = Ok (negb (_seconds a <? _seconds b)%float).
Proof.
  intros Hc.
  assert (Hlt : Smarttimers.__lt__ gci cls a (VTimer b) = Ok (_seconds a <? _seconds b)%float)
    by (unfold Smarttimers.__lt__; rewrite Hc; reflexivity).
  assert (Heq : Smarttimers.__eq__ gci cls a (VTimer b) = Ok (_seconds a =? _seconds b)%float)
    by (unfold Smarttimers.__eq__; rewrite Hc; reflexivity).
  assert (Hle : Smarttimers.__le__ gci cls a (VTimer b) = Ok (_seconds a <=? _seconds b)%float).
  { unfold Smarttimers.__le__. rewrite Hlt. simpl. rewrite FloatOrder.leb_ltb_eqb.
    destruct (_seconds a <? _seconds b)%float; [reflexivity | exact Heq]. }
  split_and!; try assumption.
  - unfold Smarttimers.__gt__. rewrite Hle. reflexivity.
  - unfold Smarttimers.__ge__. rewrite Hlt. reflexivity.
Qed.

Lemma smarttimer_compare a b gci cls :
  Smarttimer.is_compatible gci cls a (VTimer b) = Ok true ->
  Smarttimer.__lt__ gci cls a (VTimer b) = Ok (_seconds a <? _seconds b)%float /\
  Smarttimer.__eq__ gci cls a (VTimer b) = Ok (_seconds a =? _seconds b)%float /\
  Smarttimer.__le__ gci cls a (VTimer b) = Ok (_seconds a <=? _seconds b)%float /\
  Smarttimer.__gt__ gci cls a (VTimer b) = Ok (negb (_seconds a <=? _seconds b)%float) /\
  Smarttimer.__ge__ gci cls a (VTimer b) = Ok (negb (_seconds a <? _seconds b)%float).
Proof.
  intros Hc.
  assert (Hlt : Smarttimer.__lt__ gci cls a (VTimer b) = Ok (_seconds a <? _seconds b)%float)
    by (unfold Smarttimer.__lt__; rewrite Hc; reflexivity).
  assert (Heq : Smarttimer.__eq__ gci cls a (VTimer b) = Ok (_seconds a =? _seconds b)%float)
    by (unfold Smarttimer.__eq__; rewrite Hc; reflexivity).
  assert (Hle : Smarttimer.__le__ gci cls a (VTimer b) = Ok (_seconds a <=? _seconds b)%float).
  { unfold Smarttimer.__le__. rewrite Hlt. simpl. rewrite FloatOrder.leb_ltb_eqb.
    destruct (_seconds a <? _seconds b)%float; [reflexivity | exact Heq]. }
  split_and!; try assumption.
  - unfold Smarttimer.__gt__. rewrite Hle. reflexivity.
  - unfold Smarttimer.__ge__. rewrite Hlt. reflexivity.
Qed.

(** X3: between compatible [Timer]s the five comparisons are the float
    comparisons of the seconds: [a < b], [a == b] and [a <= b] always, and,
    when neither seconds is a NaN, [a > b] is [b.seconds < a.seconds] and
    [a >= b] is [b.seconds <= a.seconds].  In both packages. *)
Theorem comparisons_follow_seconds
    (get_clock_info : string -> option clock_info) (cls : TimerClass) (a b : Timer) :
  (Smarttimers.is_compatible get_clock_info cls a (VTimer b) = Ok true ->
     Smarttimers.__lt__ get_clock_info cls a (VTimer b)
     = Ok (_seconds a <? _seconds b)%float /\
     Smarttimers.__eq__ get_clock_info cls a (VTimer b)
     = Ok (_seconds a =? _seconds b)%float /\
     Smarttimers.__le__ get_clock_info cls a (VTimer b)
     = Ok (_seconds a <=? _seconds b)%float /\
     (_seconds a <> nan -> _seconds b <> nan ->
      Smarttimers.__gt__ get_clock_info cls a (VTimer b)
      = Ok (_seconds b <? _seconds a)%float /\
      Smarttimers.__ge__ get_clock_info cls a (VTimer b)
      = Ok (_seconds b <=? _seconds a)%float)) /\
  (Smarttimer.is_compatible get_clock_info cls a (VTimer b) = Ok true ->
     Smarttimer.__lt__ get_clock_info cls a (VTimer b)
     = Ok (_seconds a <? _seconds b)%float /\
     Smarttimer.__eq__ get_clock_info cls a (VTimer b)
     = Ok (_seconds a =? _seconds b)%float /\
     Smarttimer.__le__ get_clock_info cls a (VTimer b)
     = Ok (_seconds a <=? _seconds b)%float /\
     (_seconds a <> nan -> _seconds b <> nan ->
      Smarttimer.__gt__ get_clock_info cls a (VTimer b)
      = Ok (_seconds b <? _seconds a)%float /\
      Smarttimer.__ge__ get_clock_info cls a (VTimer b)
      = Ok (_seconds b <=? _seconds a)%float)).
Proof.
  split; intros Hc.
  - destruct (smarttimers_compare a b _ _ Hc) as (Hlt & Heq & Hle & Hgt & Hge).
    split_and!; try assumption. intros Ha Hb.
    rewrite Hgt, Hge, FloatOrder.not_leb_ltb, FloatOrder.not_ltb_leb by assumption. auto.
  - destruct (smarttimer_compare a b _ _ Hc) as (Hlt & Heq & Hle & Hgt & Hge).
    split_and!; try assumption. intros Ha Hb.
    rewrite Hgt, Hge, FloatOrder.not_leb_ltb, FloatOrder.not_ltb_leb by assumption. auto.
Qed.

(** [timer_a > timer_b]: 5 seconds against 7.5. *)
Lemma comparisons_follow_seconds_witness :
  Smarttimers.__gt__ linux_clock_info Smarttimers.initial_class timer_a (VTimer timer_b)
  = Ok false /\
  Smarttimers.__le__ linux_clock_info Smarttimers.initial_class timer_a (VTimer timer_b)
  = Ok true.
Proof.
  destruct (comparisons_follow_seconds linux_clock_info Smarttimers.initial_class
              timer_a timer_b) as [H _].
  destruct H as (_ & _ & Hle & Hg); [vm_compute; reflexivity|].
  destruct Hg as [Hgt _]; [vm_compute; discriminate ..|].
  split; [rewrite Hgt | rewrite Hle]; vm_compute; reflexivity.
Defined.

(** X4: when the seconds of one of two compatible [Timer]s is a NaN,
    [a < b], [a <= b] and [a == b] return [False] while [a > b] and
    [a >= b] both return [True]: [>] is computed as [not (a <= b)] and [>=]
    as [not (a < b)].  In both packages. *)
Theorem comparisons_with_nan
    (get_clock_info : string -> option clock_info) (cls : TimerClass) (a b : Timer) :
  _seconds a = nan \/ _seconds b = nan ->
  (Smarttimers.is_compatible get_clock_info cls a (VTimer b) = Ok true ->
     Smarttimers.__lt__ get_clock_info cls a (VTimer b) = Ok false /\
     Smarttimers.__le__ get_clock_info cls a (VTimer b) = Ok false /\
     Smarttimers.__eq__ get_clock_info cls a (VTimer b) = Ok false /\
     Smarttimers.__gt__ get_clock_info cls a (VTimer b) = Ok true /\
     Smarttimers.__ge__ get_clock_info cls a (VTimer b) = Ok true) /\
  (Smarttimer.is_compatible get_clock_info cls a (VTimer b) = Ok true ->
     Smarttimer.__lt__ get_clock_info cls a (VTimer b) = Ok false /\
     Smarttimer.__le__ get_clock_info cls a (VTimer b) = Ok false /\
     Smarttimer.__eq__ get_clock_info cls a (VTimer b) = Ok false /\
     Smarttimer.__gt__ get_clock_info cls a (VTimer b) = Ok true /\
     Smarttimer.__ge__ get_clock_info cls a (VTimer b) = Ok true).
Proof.
  intros Hnan.
  assert (Hc : (_seconds a <? _seconds b)%float = false /\
               (_seconds a =? _seconds b)%float = false /\
               (_seconds a <=? _seconds b)%float = false).
  { assert (Hle : (_seconds a <? _seconds b)%float = false /\
                  (_seconds a =? _seconds b)%float = false).
    { destruct Hnan as [-> | ->].
      - destruct (FloatOrder.nan_compare (_seconds b)) as (H1 & _ & H3 & _). auto.
      - destruct (FloatOrder.nan_compare (_seconds a)) as (_ & H2 & _ & H4). auto. }
    destruct Hle as [H1 H2]. rewrite FloatOrder.leb_ltb_eqb, H1, H2. auto. }
  destruct Hc as (H1 & H2 & H3).
  split; intros Hcompat.
  - destruct (smarttimers_compare a b _ _ Hcompat) as (Hlt & Heq & Hle & Hgt & Hge).
    rewrite Hlt, Heq, Hle, Hgt, Hge, H1, H2, H3. auto.
  - destruct (smarttimer_compare a b _ _ Hcompat) as (Hlt & Heq & Hle & Hgt & Hge).
    rewrite Hlt, Heq, Hle, Hgt, Hge, H1, H2, H3. auto.
Qed.

(** [Timer(seconds=float('nan'))] against [timer_a], both ways. *)
Lemma comparisons_with_nan_witness :
  Smarttimers.__gt__ linux_clock_info Smarttimers.initial_class
    (mkTimer "" nan nan (Some "perf_counter") (Some time_perf_counter)) (VTimer timer_a)
  = Ok true /\
  Smarttimers.__gt__ linux_clock_info Smarttimers.initial_class timer_a
    (VTimer (mkTimer "" nan nan (Some "perf_counter") (Some time_perf_counter)))
  = Ok true.
Proof.
  split.
  - destruct (comparisons_with_nan linux_clock_info Smarttimers.initial_class
                (mkTimer "" nan nan (Some "perf_counter") (Some time_perf_counter))
                timer_a) as [H _]; [left; reflexivity|].
    destruct H as (_ & _ & _ & H & _); [vm_compute; reflexivity | exact H].
  - destruct (comparisons_with_nan linux_clock_info Smarttimers.initial_class timer_a
                (mkTimer "" nan nan (Some "perf_counter") (Some time_perf_counter)))
      as [H _]; [right; reflexivity|].
    destruct H as (_ & _ & _ & H & _); [vm_compute; reflexivity | exact H].
Defined.

(** ** Sums and differences *)

(** X5: the seconds (and minutes) of a sum and of a difference do not
    depend on the order of the operands: whenever [a + b] and [b + a] both
    return, they carry the same time, and so do [a - b] and [b - a].  For
    [+] and [-] of the package [smarttimers] and for [sum] and [diff] of
    the package [smarttimer]. *)
Theorem sum_and_difference_symmetric
    (get_clock_info : string -> option clock_info) (cls : TimerClass) (a b t t' : Timer) :
  (Smarttimers.__add__ get_clock_info cls a (VTimer b) = Ok t ->
   Smarttimers.__add__ get_clock_info cls b (VTimer a) = Ok t' ->
   _seconds t = _seconds t' /\ _minutes t = _minutes t') /\
  (Smarttimers.__sub__ get_clock_info cls a (VTimer b) = Ok t ->
   Smarttimers.__sub__ get_clock_info cls b (VTimer a) = Ok t' ->
   _seconds t = _seconds t' /\ _minutes t = _minutes t') /\
  (SmarttimerRest.sum get_clock_info cls (VTimer a) (VTimer b) = Ok t ->
   SmarttimerRest.sum get_clock_info cls (VTimer b) (VTimer a) = Ok t' ->
   _seconds t = _seconds t' /\ _minutes t = _minutes t') /\
  (SmarttimerRest.diff get_clock_info cls (VTimer a) (VTimer b) = Ok t ->
   SmarttimerRest.diff get_clock_info cls (VTimer b) (VTimer a) = Ok t' ->
   _seconds t = _seconds t' /\ _minutes t = _minutes t').
Proof.
  split_and!; intros H H'.
  - apply SmarttimersFacts.add_inv in H as (x & [= <-] & Hs & Hm & _).
    apply SmarttimersFacts.add_inv in H' as (y & [= <-] & Hs' & Hm' & _).
    rewrite Hm, Hm', Hs, Hs', FloatOrder.add_comm. auto.
  - apply SmarttimersFacts.sub_inv in H as (x & [= <-] & Hs & Hm & _).
    apply SmarttimersFacts.sub_inv in H' as (y & [= <-] & Hs' & Hm' & _).
    rewrite Hm, Hm', Hs, Hs', FloatOrder.abs_sub_sym. auto.
  - apply SmarttimerFacts.old_add_inv in H as (x & [= <-] & Hs & Hm & _).
    apply SmarttimerFacts.old_add_inv in H' as (y & [= <-] & Hs' & Hm' & _).
    rewrite Hm, Hm', Hs, Hs', FloatOrder.add_comm. auto.
  - apply SmarttimerFacts.old_sub_inv in H as (x & [= <-] & Hs & Hm & _).
    apply SmarttimerFacts.old_sub_inv in H' as (y & [= <-] & Hs' & Hm' & _).
    rewrite Hm, Hm', Hs, Hs', FloatOrder.abs_sub_sym. auto.
Qed.

(** [timer_a - timer_b] and [timer_b - timer_a]: 2.5 seconds both. *)
Lemma sum_and_difference_symmetric_witness :
  _seconds (mkTimer "a-b" 2.5 (2.5 / 60) (Some "perf_counter") (Some time_perf_counter))
  = _seconds (mkTimer "b-a" 2.5 (2.5 / 60) (Some "monotonic") (Some time_monotonic)) /\
  Smarttimers.__sub__ linux_clock_info Smarttimers.initial_class timer_b (VTimer timer_a)
  = Ok (mkTimer "b-a" 2.5 (2.5 / 60) (Some "monotonic") (Some time_monotonic)).
Proof.
  assert (H' : Smarttimers.__sub__ linux_clock_info Smarttimers.initial_class timer_b
                 (VTimer timer_a)
               = Ok (mkTimer "b-a" 2.5 (2.5 / 60) (Some "monotonic") (Some time_monotonic)))
    by (vm_compute; reflexivity).
  split; [|exact H'].
  destruct (sum_and_difference_symmetric linux_clock_info Smarttimers.initial_class
              timer_a timer_b
              (mkTimer "a-b" 2.5 (2.5 / 60) (Some "perf_counter") (Some time_perf_counter))
              (mkTimer "b-a" 2.5 (2.5 / 60) (Some "monotonic") (Some time_monotonic)))
    as (_ & H & _).
  destruct H as [Hs _]; [vm_compute; reflexivity | exact H' | exact Hs].
Defined.

(** X6: the class methods [sum] and [diff] of the package [smarttimer]
    treat their two arguments differently when one is not a [Timer]: a
    first argument that is not a [Timer] raises the [TypeError] of the
    operator, a second argument that is not a [Timer] raises
    [TimerCompatibilityError]. *)
Theorem sum_diff_arguments
    (get_clock_info : string -> option clock_info) (cls : TimerClass)
    (t : Timer) (v : pyval) :
  (forall t', v <> VTimer t') ->
  SmarttimerRest.sum get_clock_info cls v (VTimer t) = Raise TypeError /\
  SmarttimerRest.diff get_clock_info cls v (VTimer t) = Raise TypeError /\
  SmarttimerRest.sum get_clock_info cls (VTimer t) v = Raise TimerCompatibilityError /\
  SmarttimerRest.diff get_clock_info cls (VTimer t) v = Raise TimerCompatibilityError.
Proof.
  intros Hv.
  pose proof (SmarttimerFacts.old_is_compatible_not_timer get_clock_info cls t v Hv) as Hc.
  destruct (SmarttimerFacts.old_incompatible_ops get_clock_info cls t v Hc)
    as (Hadd & Hsub & _).
  split_and!; try assumption;
    destruct v; try reflexivity; exfalso; eapply Hv; reflexivity.
Qed.

Lemma sum_diff_arguments_witness :
  SmarttimerRest.sum linux_clock_info Smarttimer.initial_class (VInt 1) (VTimer timer_a)
  = Raise TypeError /\
  SmarttimerRest.sum linux_clock_info Smarttimer.initial_class (VTimer timer_a) (VInt 1)
  = Raise TimerCompatibilityError.
Proof.
  destruct (sum_diff_arguments linux_clock_info Smarttimer.initial_class timer_a (VInt 1))
    as (H1 & _ & H3 & _); [discriminate | auto].
Defined.

(** ** The clock name *)

Lemma and_then_ext {S : Type} (m : outcome S) (k k' : S -> outcome S) :
  (forall s, k s = k' s) -> m ;;; k = m ;;; k'.
Proof. intros H. destruct m; simpl; [apply H | reflexivity]. Qed.

Lemma smarttimers_setter_empty (get_clock_info : string -> option clock_info)
    (cls : TimerClass) (self : Timer) :
  Smarttimers.clock_name_setter get_clock_info cls (VStr "") self
  = Smarttimers.clock_name_setter get_clock_info cls (VStr (DEFAULT_CLOCK_NAME cls)) self.
Proof.
  unfold Smarttimers.clock_name_setter.
  rewrite !SmarttimersFacts.is_compatible_str.
  apply and_then_ext. intros s.
  change (nonempty "") with false. cbv iota.
  destruct (nonempty (DEFAULT_CLOCK_NAME cls)); reflexivity.
Qed.

Lemma smarttimer_setter_empty (get_clock_info : string -> option clock_info)
    (cls : TimerClass) (self : Timer) :
  Smarttimer.clock_name_setter get_clock_info cls (VStr "") self
  = Smarttimer.clock_name_setter get_clock_info cls (VStr (DEFAULT_CLOCK_NAME cls)) self.
Proof.
  unfold Smarttimer.clock_name_setter.
  rewrite !SmarttimerFacts.old_is_compatible_str.
  apply and_then_ext. intros s.
  change (nonempty "") with false. cbv iota.
  destruct (nonempty (DEFAULT_CLOCK_NAME cls)); reflexivity.
Qed.

(** X7: an empty clock name stands for the default one everywhere: assigning
    [""] to [clock_name] does what assigning [DEFAULT_CLOCK_NAME] does, and
    constructing with [clock_name=""] does what constructing without the
    keyword does, whatever the other arguments are and whether the call
    returns or raises.  In both packages. *)
Theorem empty_clock_name_is_default
    (get_clock_info : string -> option clock_info) (cls : TimerClass)
    (self : Timer) (label : pyval) (seconds timer : option pyval) :
  Smarttimers.clock_name_setter get_clock_info cls (VStr "") self
  = Smarttimers.clock_name_setter get_clock_info cls (VStr (DEFAULT_CLOCK_NAME cls)) self /\
  Smarttimers.__init__ get_clock_info cls label (mkKwargs seconds (Some (VStr "")) timer)
  = Smarttimers.__init__ get_clock_info cls label (mkKwargs seconds None timer) /\
  Smarttimer.clock_name_setter get_clock_info cls (VStr "") self
  = Smarttimer.clock_name_setter get_clock_info cls (VStr (DEFAULT_CLOCK_NAME cls)) self /\
  Smarttimer.__init__ get_clock_info cls label (mkKwargs seconds (Some (VStr "")) timer)
  = Smarttimer.__init__ get_clock_info cls label (mkKwargs seconds None timer).
Proof.
  split_and!.
  - apply smarttimers_setter_empty.
  - unfold Smarttimers.__init__. f_equal. apply and_then_ext. intros s.
    cbn [kw_timer kw_seconds kw_clock_name].
    destruct (truthy (default VNone timer)); [reflexivity|].
    apply and_then_ext. intros s'. apply smarttimers_setter_empty.
  - apply smarttimer_setter_empty.
  - unfold Smarttimer.__init__. f_equal. apply and_then_ext. intros s.
    cbn [kw_timer kw_seconds kw_clock_name].
    destruct (default VNone timer); try reflexivity;
      destruct (as_num _); try reflexivity;
      destruct (num_ltb0 _); try reflexivity;
      apply and_then_ext; intros s'; apply smarttimer_setter_empty.
Qed.

(** X8: the [clock_name] setter is not atomic.  On a [Timer] that has a clock
    name, assigning a string whose resolved name (the string itself, or
    [DEFAULT_CLOCK_NAME] when the string is empty) is not a key of the
    registry raises [KeyError] ([TimerKeyError] in the package
    [smarttimer]) after the time was zeroed and the resolved name stored,
    while the timing function stays the previous one; the label is kept.
    Assigning a value that is not a string raises [TypeError]
    ([TimerTypeError]) and changes nothing. *)
Theorem clock_name_setter_not_atomic
    (get_clock_info : string -> option clock_info) (cls : TimerClass) (self : Timer) :
  (forall prev name n,
     _clock_name self = Some prev ->
     n = (if String.eqb name "" then DEFAULT_CLOCK_NAME cls else name) ->
     CLOCKS cls !! n = None ->
     Smarttimers.clock_name_setter get_clock_info cls (VStr name) self
     = Fail KeyError (mkTimer (_label self) 0 0 (Some n) (_clock self)) /\
     Smarttimer.clock_name_setter get_clock_info cls (VStr name) self
     = Fail TimerKeyError (mkTimer (_label self) 0 0 (Some n) (_clock self))) /\
  (forall v, (forall s, v <> VStr s) ->
     Smarttimers.clock_name_setter get_clock_info cls v self = Fail TypeError self /\
     Smarttimer.clock_name_setter get_clock_info cls v self = Fail TimerTypeError self).
Proof.
  split.
  - intros prev name n Hp Hn Hk.
    assert (Hn' : n = if nonempty name then name else DEFAULT_CLOCK_NAME cls)
      by (rewrite Hn; unfold nonempty; destruct (String.eqb name ""); reflexivity).
    split.
    + rewrite (SmarttimersFacts.clock_name_setter_again _ _ _ prev) by exact Hp.
      cbv zeta. rewrite <- Hn', Hk. reflexivity.
    + rewrite (SmarttimerFacts.old_clock_name_setter_again _ _ _ prev) by exact Hp.
      cbv zeta. rewrite <- Hn', Hk. reflexivity.
  - intros v Hv.
    split; destruct v; try reflexivity; exfalso; eapply Hv; reflexivity.
Qed.

(** [timer_a.clock_name = 'sundial'], and [timer_a.clock_name = ''] once
    the default clock name is ['sundial']. *)
Lemma clock_name_setter_not_atomic_witness :
  Smarttimers.clock_name_setter linux_clock_info Smarttimers.initial_class
    (VStr "sundial") timer_a
  = Fail KeyError (mkTimer "a" 0 0 (Some "sundial") (Some time_perf_counter)) /\
  Smarttimers.clock_name_setter linux_clock_info
    (mkClass "sundial" Smarttimers._CLOCKS) (VStr "") timer_a
  = Fail KeyError (mkTimer "a" 0 0 (Some "sundial") (Some time_perf_counter)).
Proof.
  split.
  - destruct (clock_name_setter_not_atomic linux_clock_info Smarttimers.initial_class
                timer_a) as [H _].
    destruct (H "perf_counter" "sundial" "sundial") as [H1 _];
      [reflexivity | reflexivity | vm_compute; reflexivity | exact H1].
  - destruct (clock_name_setter_not_atomic linux_clock_info
                (mkClass "sundial" Smarttimers._CLOCKS) timer_a) as [H _].
    destruct (H "perf_counter" "" "sundial") as [H1 _];
      [reflexivity | reflexivity | vm_compute; reflexivity | exact H1].
Defined.

(** ** The registry and the class attributes *)

Lemma with_clocks_id (cls : TimerClass) : with_clocks cls (CLOCKS cls) = cls.
Proof. destruct cls; reflexivity. Qed.

(** X9: registering a clock and unregistering it again leaves the registry
    without that name: an entry that was there before under the same name
    is lost, not restored, and every other entry is untouched.  When the
    name was not registered before, the class is exactly what it was.
    In both packages (the package [smarttimers] needs a name that is not
    empty for the registration to succeed). *)
Theorem register_then_unregister (cls : TimerClass) (n : string) (f : clockfn) :
  n <> "" ->
  Smarttimers.register_clock (VStr n) (VFunc f) cls
    ;;; Smarttimers.unregister_clock (VStr n)
  = Done (with_clocks cls (delete n (CLOCKS cls))) /\
  Smarttimer.register_clock (VStr n) (VFunc f) cls
    ;;; Smarttimer.unregister_clock (VStr n)
  = Done (with_clocks cls (delete n (CLOCKS cls))) /\
  (CLOCKS cls !! n = None -> with_clocks cls (delete n (CLOCKS cls)) = cls).
Proof.
  intros Hn. split_and!.
  - unfold Smarttimers.register_clock, Smarttimers.unregister_clock, on_clocks.
    unfold Smarttimers.TimerDict.__setitem__.
    rewrite (nonempty_true _ Hn). cbn.
    rewrite lookup_insert_eq. cbn. rewrite delete_insert_eq. reflexivity.
  - unfold Smarttimer.register_clock, Smarttimer.unregister_clock, on_clocks.
    cbn. rewrite lookup_insert_eq, delete_insert_eq. reflexivity.
  - intros H. rewrite delete_id by exact H. apply with_clocks_id.
Qed.

Lemma register_then_unregister_witness :
  Smarttimers.register_clock (VStr "custom_time") (VFunc custom_time_function)
      Smarttimers.initial_class
    ;;; Smarttimers.unregister_clock (VStr "custom_time")
  = Done Smarttimers.initial_class.
Proof.
  destruct (register_then_unregister Smarttimers.initial_class "custom_time"
              custom_time_function) as (H & _ & Hid); [discriminate|].
  rewrite Hid in H; [exact H | vm_compute; reflexivity].
Defined.

Lemma smarttimers_init_default_seconds (get_clock_info : string -> option clock_info)
    (cls : TimerClass) (l n : string) :
  n <> "" ->
  Smarttimers.__init__ get_clock_info cls (VStr l) (mkKwargs None (Some (VStr n)) None)
  = match CLOCKS cls !! n with
    | Some f => Ok (mkTimer l 0 0 (Some n) (Some f))
    | None => Raise KeyError
    end.
Proof.
  intros Hn. unfold Smarttimers.__init__. cbn.
  rewrite (nonempty_true _ Hn). unfold Smarttimers.CLOCKS_getitem.
  destruct (CLOCKS cls !! n); reflexivity.
Qed.

Lemma smarttimer_init_default_seconds (get_clock_info : string -> option clock_info)
    (cls : TimerClass) (l n : string) :
  n <> "" ->
  Smarttimer.__init__ get_clock_info cls (VStr l) (mkKwargs None (Some (VStr n)) None)
  = match CLOCKS cls !! n with
    | Some f => Ok (mkTimer l 0 0 (Some n) (Some f))
    | None => Raise TimerKeyError
    end.
Proof.
  intros Hn. unfold Smarttimer.__init__. cbn.
  rewrite (nonempty_true _ Hn).
  destruct (CLOCKS cls !! n); reflexivity.
Qed.

(** X10: construction follows the registry, for a clock name [n] that is
    not the empty string: right after [register_clock(n, f)] the
    constructor with a string label and [clock_name=n] (no other keyword)
    returns a zero [Timer] on [n] bound to [f], also when [n] named another
    function before; right after [unregister_clock(n)], whether that call
    returned or raised, it raises [KeyError] ([TimerKeyError] in the
    package [smarttimer]). *)
Theorem construction_follows_registry
    (get_clock_info : string -> option clock_info) (cls : TimerClass)
    (l n : string) (f : clockfn) :
  n <> "" ->
  Smarttimers.__init__ get_clock_info
    (state_of (Smarttimers.register_clock (VStr n) (VFunc f) cls))
    (VStr l) (mkKwargs None (Some (VStr n)) None)
  = Ok (mkTimer l 0 0 (Some n) (Some f)) /\
  Smarttimers.__init__ get_clock_info
    (state_of (Smarttimers.unregister_clock (VStr n) cls))
    (VStr l) (mkKwargs None (Some (VStr n)) None)
  = Raise KeyError /\
  Smarttimer.__init__ get_clock_info
    (state_of (Smarttimer.register_clock (VStr n) (VFunc f) cls))
    (VStr l) (mkKwargs None (Some (VStr n)) None)
  = Ok (mkTimer l 0 0 (Some n) (Some f)) /\
  Smarttimer.__init__ get_clock_info
    (state_of (Smarttimer.unregister_clock (VStr n) cls))
    (VStr l) (mkKwargs None (Some (VStr n)) None)
  = Raise TimerKeyError.
Proof.
  intros Hn. split_and!.
  - rewrite smarttimers_init_default_seconds by exact Hn.
    unfold Smarttimers.register_clock. rewrite RegistryFacts.on_clocks_state.
    unfold Smarttimers.TimerDict.__setitem__. rewrite (nonempty_true _ Hn). cbn.
    rewrite lookup_insert_eq. reflexivity.
  - rewrite smarttimers_init_default_seconds by exact Hn.
    unfold Smarttimers.unregister_clock. rewrite RegistryFacts.on_clocks_state.
    cbn. destruct (CLOCKS cls !! n) eqn:E; cbn;
      [rewrite lookup_delete_eq | rewrite E]; reflexivity.
  - rewrite smarttimer_init_default_seconds by exact Hn.
    unfold Smarttimer.register_clock. rewrite RegistryFacts.on_clocks_state. cbn.
    rewrite lookup_insert_eq. reflexivity.
  - rewrite smarttimer_init_default_seconds by exact Hn.
    unfold Smarttimer.unregister_clock. rewrite RegistryFacts.on_clocks_state.
    cbn. destruct (CLOCKS cls !! n) eqn:E; cbn;
      [rewrite lookup_delete_eq | rewrite E]; reflexivity.
Qed.

Lemma construction_follows_registry_witness :
  Smarttimers.__init__ linux_clock_info
    (state_of (Smarttimers.unregister_clock (VStr "clock") Smarttimers.initial_class))
    (VStr "a") (mkKwargs None (Some (VStr "clock")) None)
  = Raise KeyError.
Proof.
  destruct (construction_follows_registry linux_clock_info Smarttimers.initial_class
              "a" "clock" time_clock) as (_ & H & _); [discriminate | exact H].
Defined.

(** ** [TimerDict.update] and the setters of the class attributes *)






(** X13: the setter of [Timer.DEFAULT_CLOCK_NAME] accepts any string, a
    registry key or not, and refuses anything else leaving the class as it
    was.  After it accepted [s], constructing a [Timer] without a clock name
    returns a zero [Timer] on the function registered under [s] when there
    is one, and raises [KeyError] ([TimerKeyError] in the package
    [smarttimer]) when [s] is not a key of the registry. *)
Theorem default_clock_name_unchecked
    (get_clock_info : string -> option clock_info) (cls : TimerClass)
    (s l : string) (v : pyval) :
  (forall s', v <> VStr s') ->
  let cls' := mkClass s (CLOCKS cls) in
  SmarttimersRest.DEFAULT_CLOCK_NAME_setter (VStr s) cls = Done cls' /\
  SmarttimerRest.DEFAULT_CLOCK_NAME_setter (VStr s) cls = Done cls' /\
  SmarttimersRest.DEFAULT_CLOCK_NAME_setter v cls = Fail TypeError cls /\
  SmarttimerRest.DEFAULT_CLOCK_NAME_setter v cls = Fail TimerTypeError cls /\
  Smarttimers.__init__ get_clock_info cls' (VStr l) (mkKwargs None None None)
  = match CLOCKS cls !! s with
    | Some f => Ok (mkTimer l 0 0 (Some s) (Some f))
    | None => Raise KeyError
    end /\
  Smarttimer.__init__ get_clock_info cls' (VStr l) (mkKwargs None None None)
  = match CLOCKS cls !! s with
    | Some f => Ok (mkTimer l 0 0 (Some s) (Some f))
    | None => Raise TimerKeyError
    end.
Proof.
  intros Hv cls'. split_and!; try reflexivity.
  - destruct v; try reflexivity. exfalso. eapply Hv. reflexivity.
  - destruct v; try reflexivity. exfalso. eapply Hv. reflexivity.
  - unfold Smarttimers.__init__. cbn. unfold Smarttimers.CLOCKS_getitem. cbn.
    destruct (nonempty s); cbn; destruct (CLOCKS cls !! s); reflexivity.
  - unfold Smarttimer.__init__. cbn.
    destruct (nonempty s); cbn; destruct (CLOCKS cls !! s); reflexivity.
Qed.

Lemma default_clock_name_unchecked_witness :
  Smarttimers.__init__ linux_clock_info (mkClass "sundial" Smarttimers._CLOCKS)
    (VStr "a") (mkKwargs None None None)
  = Raise KeyError.
Proof.
  destruct (default_clock_name_unchecked linux_clock_info Smarttimers.initial_class
              "sundial" "a" VNone) as (_ & _ & _ & _ & H & _); [discriminate|].
  exact H.
Defined.

(** ** Readings, constructor arguments and clock information *)

(** X14: a negative reading of the timing function.  In the package
    [smarttimers], [time()] raises [ValueError] and the [Timer] keeps the
    time it had; in the package [smarttimer], [time()] stores the reading
    unchecked, so the [Timer] then has negative seconds and the invariant
    of its time values is lost. *)
Theorem time_negative_reading (self : Timer) (g : clockfn) (f : float) :
  _clock self = Some g ->
  (f <? 0)%float = true ->
  Smarttimers.time (VFloat f) self = Fail ValueError self /\
  Smarttimer.time (NFloat f) self
  = Done (mkTimer (_label self) f (f / 60)%float (_clock_name self) (_clock self)) /\
  ~ time_ok (state_of (Smarttimer.time (NFloat f) self)).
Proof.
  intros Hg Hf. split_and!.
  - unfold Smarttimers.time, Smarttimers._set_time. rewrite Hg. cbn. rewrite Hf.
    reflexivity.
  - destruct self. cbn in Hg. subst. reflexivity.
  - destruct self. cbn in Hg. subst. cbn. intros [H _]. cbn in H. congruence.
Qed.

Lemma time_negative_reading_witness :
  Smarttimers.time (VFloat (-1)) timer_a = Fail ValueError timer_a /\
  _seconds (state_of (Smarttimer.time (NFloat (-1)) timer_a)) = (-1)%float.
Proof.
  destruct (time_negative_reading timer_a time_perf_counter (-1)) as (H1 & H2 & _);
    [reflexivity | reflexivity |].
  split; [exact H1 | rewrite H2; reflexivity].
Defined.

(** X15: the keyword [timer] of the constructor when it is not a [Timer].
    The package [smarttimer] tests [isinstance(other, Timer)] and ignores
    any other value: the call is the call without the keyword.  The package
    [smarttimers] tests the truth value: a false value (None, 0, an empty
    string, list or dictionary) is ignored likewise, and a true value that
    is not a [Timer] raises [AttributeError] once the label was accepted. *)
Theorem constructor_timer_keyword
    (get_clock_info : string -> option clock_info) (cls : TimerClass)
    (label : pyval) (l : string) (s c : option pyval) (v : pyval) :
  (forall t, v <> VTimer t) ->
  Smarttimer.__init__ get_clock_info cls label (mkKwargs s c (Some v))
  = Smarttimer.__init__ get_clock_info cls label (mkKwargs s c None) /\
  (truthy v = false ->
   Smarttimers.__init__ get_clock_info cls label (mkKwargs s c (Some v))
   = Smarttimers.__init__ get_clock_info cls label (mkKwargs s c None)) /\
  (truthy v = true ->
   Smarttimers.__init__ get_clock_info cls (VStr l) (mkKwargs s c (Some v))
   = Raise AttributeError).
Proof.
  intros Hv. split_and!.
  - unfold Smarttimer.__init__. cbn [kw_timer kw_seconds kw_clock_name default from_option id].
    destruct v; try reflexivity. exfalso. eapply Hv. reflexivity.
  - intros Ht. unfold Smarttimers.__init__.
    cbn [kw_timer kw_seconds kw_clock_name default from_option id].
    rewrite Ht. reflexivity.
  - intros Ht. unfold Smarttimers.__init__.
    cbn [kw_timer kw_seconds kw_clock_name default from_option id].
    rewrite Ht. destruct v; try reflexivity. exfalso. eapply Hv. reflexivity.
Qed.

Lemma constructor_timer_keyword_witness :
  Smarttimers.__init__ linux_clock_info Smarttimers.initial_class (VStr "a")
    (mkKwargs None None (Some (VInt 3)))
  = Raise AttributeError /\
  Smarttimer.__init__ linux_clock_info Smarttimer.initial_class (VStr "a")
    (mkKwargs None None (Some (VInt 3)))
  = Ok (mkTimer "a" 0 0 (Some "perf_counter") (Some time_perf_counter)).
Proof.
  destruct (constructor_timer_keyword linux_clock_info Smarttimers.initial_class
              (VStr "a") "a" None None (VInt 3)) as (H1 & _ & H3); [discriminate|].
  split; [apply H3; reflexivity|].
  change Smarttimers.initial_class with Smarttimer.initial_class in H1.
  rewrite H1. vm_compute. reflexivity.
Defined.

(** X16: the order in which the constructor examines its arguments (no
    [timer] keyword).  A label that is not a string raises [TypeError]
    whatever the other arguments are; with a string label, seconds that are
    not a number raise [TypeError] whatever the clock name is, registered
    or not; with seconds that are not negative, a clock name that is
    not a string raises [TypeError].  In the package [smarttimer] the three
    errors are [TimerTypeError]. *)
Theorem constructor_checks_in_order
    (get_clock_info : string -> option clock_info) (cls : TimerClass)
    (label sv cv : pyval) (l : string) (f : float) (kw : kwargs) (c : option pyval) :
  (forall s, label <> VStr s) ->
  as_num sv = None ->
  (forall s, cv <> VStr s) ->
  (f <? 0)%float = false ->
  (Smarttimers.__init__ get_clock_info cls label kw = Raise TypeError /\
   Smarttimer.__init__ get_clock_info cls label kw = Raise TimerTypeError) /\
  (Smarttimers.__init__ get_clock_info cls (VStr l) (mkKwargs (Some sv) c None)
   = Raise TypeError /\
   Smarttimer.__init__ get_clock_info cls (VStr l) (mkKwargs (Some sv) c None)
   = Raise TimerTypeError) /\
  (Smarttimers.__init__ get_clock_info cls (VStr l)
     (mkKwargs (Some (VFloat f)) (Some cv) None)
   = Raise TypeError /\
   Smarttimer.__init__ get_clock_info cls (VStr l)
     (mkKwargs (Some (VFloat f)) (Some cv) None)
   = Raise TimerTypeError).
Proof.
  intros Hl Hs Hc Hf. split_and!.
  - destruct label; try reflexivity. exfalso. eapply Hl. reflexivity.
  - destruct label; try reflexivity. exfalso. eapply Hl. reflexivity.
  - unfold Smarttimers.__init__, Smarttimers._set_time. cbn. rewrite Hs. reflexivity.
  - unfold Smarttimer.__init__. cbn. rewrite Hs. reflexivity.
  - unfold Smarttimers.__init__. cbn [kw_timer kw_seconds kw_clock_name default from_option id
      Smarttimers.label_setter and_then truthy].
    rewrite SmarttimersFacts.set_time_float by exact Hf. cbn [and_then].
    destruct cv; try reflexivity. exfalso. eapply Hc. reflexivity.
  - unfold Smarttimer.__init__. cbn [kw_timer kw_seconds kw_clock_name default from_option id
      Smarttimer.id_setter and_then as_num num_ltb0].
    rewrite Hf, SmarttimerFacts.old_set_time_float. cbn [and_then].
    destruct cv; try reflexivity. exfalso. eapply Hc. reflexivity.
Qed.

Lemma constructor_checks_in_order_witness :
  Smarttimers.__init__ linux_clock_info Smarttimers.initial_class (VStr "a")
    (mkKwargs (Some (VStr "5")) (Some (VStr "sundial")) None)
  = Raise TypeError.
Proof.
  destruct (constructor_checks_in_order linux_clock_info Smarttimers.initial_class
              (VInt 1) (VStr "5") (VInt 2) "a" 5 (mkKwargs None None None)
              (Some (VStr "sundial"))) as (_ & [H _] & _);
    [discriminate | reflexivity | discriminate | reflexivity | exact H].
Defined.

Lemma namespace_of_eqb (i j : clock_info) :
  namespace_eqb (namespace_of i) (namespace_of j) = clock_info_eqb i j.
Proof. reflexivity. Qed.

(** X17: [is_compatible] against [get_info].  For two [Timer]s whose clock
    names the runtime both knows, or both does not know, compatible
    [Timer]s have equal clock information (the namespaces [get_info]
    returns compare equal); when the runtime knows both names,
    [is_compatible] is exactly that comparison.  In both packages. *)
Theorem compatible_timers_same_info
    (get_clock_info : string -> option clock_info)
    (function_name : clockfn -> option string) (cls : TimerClass)
    (a b : Timer) (n1 n2 : string) (na nb : namespace) :
  _clock_name a = Some n1 -> _clock_name b = Some n2 ->
  (get_clock_info n1 = None <-> get_clock_info n2 = None) ->
  (SmarttimersRest.get_info get_clock_info function_name cls a = Ok na ->
   SmarttimersRest.get_info get_clock_info function_name cls b = Ok nb ->
   (Smarttimers.is_compatible get_clock_info cls a (VTimer b) = Ok true ->
    namespace_eqb na nb = true) /\
   (get_clock_info n1 <> None ->
    Smarttimers.is_compatible get_clock_info cls a (VTimer b)
    = Ok (namespace_eqb na nb))) /\
  (SmarttimerRest.get_info get_clock_info function_name cls a = Ok na ->
   SmarttimerRest.get_info get_clock_info function_name cls b = Ok nb ->
   (Smarttimer.is_compatible get_clock_info cls a (VTimer b) = Ok true ->
    namespace_eqb na nb = true) /\
   (get_clock_info n1 <> None ->
    Smarttimer.is_compatible get_clock_info cls a (VTimer b)
    = Ok (namespace_eqb na nb))).
Proof.
  intros Ha Hb Hk. split.
  - unfold SmarttimersRest.get_info, Smarttimers.is_compatible,
      Smarttimers.same_clock_info, clock_name, Smarttimers.CLOCKS_getitem.
    rewrite Ha, Hb. cbn.
    destruct (get_clock_info n1) as [i|] eqn:E1, (get_clock_info n2) as [j|] eqn:E2; cbn.
    + intros [= <-] [= <-]. rewrite namespace_of_eqb. split; [intros [= ->]|]; reflexivity.
    + exfalso. destruct Hk as [_ Hk]. discriminate (Hk eq_refl).
    + exfalso. destruct Hk as [Hk _]. discriminate (Hk eq_refl).
    + destruct (CLOCKS cls !! n1) as [f1|]; cbn; [|discriminate].
      destruct (CLOCKS cls !! n2) as [f2|]; cbn; [|destruct (function_name f1); discriminate].
      destruct (function_name f1) as [s1|] eqn:F1; [|discriminate].
      destruct (function_name f2) as [s2|] eqn:F2; [|discriminate].
      intros [= <-] [= <-]. split; [|congruence].
      intros [= H]. apply Pos.eqb_eq in H. subst f2.
      rewrite F1 in F2. injection F2 as <-.
      unfold namespace_eqb. cbn. rewrite String.eqb_refl. reflexivity.
  - unfold SmarttimerRest.get_info, Smarttimer.is_compatible,
      Smarttimer.same_clock_info, clock_name.
    rewrite Ha, Hb. cbn.
    destruct (get_clock_info n1) as [i|] eqn:E1, (get_clock_info n2) as [j|] eqn:E2; cbn.
    + intros [= <-] [= <-]. rewrite namespace_of_eqb. split; [intros [= ->]|]; reflexivity.
    + exfalso. destruct Hk as [_ Hk]. discriminate (Hk eq_refl).
    + exfalso. destruct Hk as [Hk _]. discriminate (Hk eq_refl).
    + rewrite ?SmarttimerFacts.old_CLOCKS_getitem_eq.
      destruct (CLOCKS cls !! n1) as [f1|]; cbn; [|discriminate].
      destruct (CLOCKS cls !! n2) as [f2|]; cbn; [|destruct (function_name f1); discriminate].
      destruct (function_name f1) as [s1|] eqn:F1; [|discriminate].
      destruct (function_name f2) as [s2|] eqn:F2; [|discriminate].
      intros [= <-] [= <-]. split; [|congruence].
      intros [= H]. apply Pos.eqb_eq in H. subst f2.
      rewrite F1 in F2. injection F2 as <-.
      unfold namespace_eqb. cbn. rewrite String.eqb_refl. reflexivity.
Qed.

(** [timer_a] (perf_counter) and [timer_b] (monotonic) on Linux. *)
Lemma compatible_timers_same_info_witness :
  Smarttimers.is_compatible linux_clock_info Smarttimers.initial_class timer_a
    (VTimer timer_b)
  = Ok true.
Proof.
  destruct (compatible_timers_same_info linux_clock_info (fun _ => None)
              Smarttimers.initial_class timer_a timer_b "perf_counter" "monotonic"
              (namespace_of (mkInfo false "clock_gettime(CLOCK_MONOTONIC)" true
                               0x1.12e0be826d695p-30))
              (namespace_of (mkInfo false "clock_gettime(CLOCK_MONOTONIC)" true
                               0x1.12e0be826d695p-30)))
    as [H _]; [reflexivity | reflexivity | split; discriminate |].
  destruct H as [_ H]; [reflexivity | reflexivity |].
  rewrite H by discriminate. vm_compute. reflexivity.
Defined.

(** ** Failures of [unregister_clock] and of [is_compatible] *)

(** X18: [unregister_clock] with an argument that is not a registered name
    changes nothing and raises: in the package [smarttimers] [KeyError],
    or [TypeError] when the argument is unhashable (a list, a dictionary, a
    [Timer]); in the package [smarttimer] always [TimerKeyError].  With a
    registered name it removes that entry and no other, in both packages. *)
Theorem unregister_clock_cases (cls : TimerClass) (v : pyval) :
  (forall s, v = VStr s -> CLOCKS cls !! s = None) ->
  Smarttimers.unregister_clock v cls
  = Fail (if hashable v then KeyError else TypeError) cls /\
  Smarttimer.unregister_clock v cls = Fail TimerKeyError cls /\
  (forall s f, CLOCKS cls !! s = Some f ->
     Smarttimers.unregister_clock (VStr s) cls
     = Done (with_clocks cls (delete s (CLOCKS cls))) /\
     Smarttimer.unregister_clock (VStr s) cls
     = Done (with_clocks cls (delete s (CLOCKS cls)))).
Proof.
  intros Hv. split_and!.
  - unfold Smarttimers.unregister_clock, on_clocks, Smarttimers.TimerDict.__getitem__,
      dict_getitem.
    destruct v; cbn; rewrite ?with_clocks_id; try reflexivity.
    rewrite (Hv s eq_refl). cbn. rewrite with_clocks_id. reflexivity.
  - unfold Smarttimer.unregister_clock, on_clocks, Smarttimer.TimerDict.__getitem__.
    destruct v; cbn; rewrite ?with_clocks_id; try reflexivity.
    rewrite (Hv s eq_refl). cbn. rewrite with_clocks_id. reflexivity.
  - intros s f H. split.
    + unfold Smarttimers.unregister_clock, on_clocks, Smarttimers.TimerDict.__getitem__,
        Smarttimers.TimerDict.__delitem__, dict_getitem, dict_delitem.
      cbn. rewrite H. reflexivity.
    + unfold Smarttimer.unregister_clock, on_clocks, Smarttimer.TimerDict.__getitem__,
        Smarttimer.TimerDict.__delitem__, dict_delitem.
      cbn. rewrite H. reflexivity.
Qed.

Lemma unregister_clock_cases_witness :
  Smarttimers.unregister_clock (VList [VStr "clock"]) Smarttimers.initial_class
  = Fail TypeError Smarttimers.initial_class /\
  Smarttimer.unregister_clock (VList [VStr "clock"]) Smarttimer.initial_class
  = Fail TimerKeyError Smarttimer.initial_class.
Proof.
  destruct (unregister_clock_cases Smarttimers.initial_class (VList [VStr "clock"]))
    as (H1 & H2 & _); [discriminate|].
  split; [exact H1 | exact H2].
Defined.

(** X19: an exception of [is_compatible] comes out of every operation on
    two [Timer]s unchanged.  When [is_compatible] raises (the clock name of
    an operand is neither known to the runtime nor a key of the registry),
    [+], [-], [==], [<], [<=], [>] and [>=] raise that same exception, not
    a compatibility error; and it can only be the lookup error of the
    registry or a missing attribute.  In both packages. *)
Theorem operations_propagate_lookup_error
    (get_clock_info : string -> option clock_info) (cls : TimerClass)
    (a : Timer) (other : pyval) (e : exn) :
  (Smarttimers.is_compatible get_clock_info cls a other = Raise e ->
     (e = KeyError \/ e = AttributeError) /\
     Smarttimers.__add__ get_clock_info cls a other = Raise e /\
     Smarttimers.__sub__ get_clock_info cls a other = Raise e /\
     Smarttimers.__eq__ get_clock_info cls a other = Raise e /\
     Smarttimers.__lt__ get_clock_info cls a other = Raise e /\
     Smarttimers.__le__ get_clock_info cls a other = Raise e /\
     Smarttimers.__gt__ get_clock_info cls a other = Raise e /\
     Smarttimers.__ge__ get_clock_info cls a other = Raise e) /\
  (Smarttimer.is_compatible get_clock_info cls a other = Raise e ->
     (e = TimerKeyError \/ e = AttributeError) /\
     Smarttimer.__add__ get_clock_info cls a other = Raise e /\
     Smarttimer.__sub__ get_clock_info cls a other = Raise e /\
     Smarttimer.__eq__ get_clock_info cls a other = Raise e /\
     Smarttimer.__lt__ get_clock_info cls a other = Raise e /\
     Smarttimer.__le__ get_clock_info cls a other = Raise e /\
     Smarttimer.__gt__ get_clock_info cls a other = Raise e /\
     Smarttimer.__ge__ get_clock_info cls a other = Raise e).
Proof.
  split; intros H.
  - split; [apply (SmarttimersFacts.is_compatible_raises _ _ _ _ _ H)|].
    unfold Smarttimers.__gt__, Smarttimers.__ge__, Smarttimers.__le__,
      Smarttimers.__lt__, Smarttimers.__eq__, Smarttimers.__add__, Smarttimers.__sub__.
    rewrite H. split_and!; reflexivity.
  - split.
    + unfold Smarttimer.is_compatible in H.
      destruct other as [| | | | | |t| |]; try discriminate.
      destruct (Smarttimer.same_clock_info get_clock_info a t); [discriminate|].
      unfold clock_name in H.
      destruct (_clock_name a) as [n1|]; cbn in H; [|injection H as <-; auto].
      rewrite ?SmarttimerFacts.old_CLOCKS_getitem_eq in H.
      destruct (CLOCKS cls !! n1); cbn in H; [|injection H as <-; auto].
      destruct (_clock_name t) as [n2|]; cbn in H; [|injection H as <-; auto].
      rewrite ?SmarttimerFacts.old_CLOCKS_getitem_eq in H.
      destruct (CLOCKS cls !! n2); cbn in H; [discriminate|injection H as <-; auto].
    + unfold Smarttimer.__gt__, Smarttimer.__ge__, Smarttimer.__le__,
        Smarttimer.__lt__, Smarttimer.__eq__, Smarttimer.__add__, Smarttimer.__sub__.
      rewrite H. split_and!; reflexivity.
Qed.

(** A [Timer] on ["custom_time"] after the clock was unregistered. *)
Lemma operations_propagate_lookup_error_witness :
  Smarttimers.__lt__ linux_clock_info Smarttimers.initial_class
    (mkTimer "c" 1 (1 / 60) (Some "custom_time") (Some custom_time_function))
    (VTimer timer_a)
  = Raise KeyError.
Proof.
  destruct (operations_propagate_lookup_error linux_clock_info Smarttimers.initial_class
              (mkTimer "c" 1 (1 / 60) (Some "custom_time") (Some custom_time_function))
              (VTimer timer_a) KeyError) as [H _].
  destruct H as (_ & _ & _ & _ & H & _); [vm_compute; reflexivity | exact H].
Defined.
